(** * bidur: the schema-driven form page (ui/html/form.js)

    A shallow embedding of the page script: the URL resolver
    ([getUrlParams]), the loader ([generateForm]), the renderer
    ([renderForm]) and the submit listener, followed by the properties
    of the specification that concern them.

    Modelling conventions.
    - A JS string is a [string]; an optional member of a JSON object is an
      [option]; the operator [a || b] on strings follows JS truthiness
      (the empty string counts as missing).
    - An object iterated with [Object.entries] is the list of its entries
      in iteration order; an object only indexed by key is a [gmap].
    - The DOM is the record [Page]: the text of the few elements the script
      writes, the children of [#form-fields], the visible section and the
      log of the requests issued with [fetch]. The elements that the script
      looks up by id (the title, the description, the button, the error
      text, the sections) are taken to be the ones found: the page that
      holds them is not part of the sources, and a rendered control that
      bore one of their ids and came first in the document would be found
      in their place.
    - Code that may throw runs in the monad [M], which threads the page and
      ends in a value or a thrown exception; [try_catch] is try/catch.
    - [fetch] is answered by a [World], one oracle per endpoint. *)

From stdpp Require Import base option list strings gmap.
From Stdlib Require Import Ascii String.

Open Scope string_scope.

(** ** JavaScript values and operators *)

Definition dquote : string := String (ascii_of_nat 34) EmptyString.

(** Truthiness of a string member that may be missing. *)
Definition truthy (o : option string) : bool :=
  match o with
  | Some s => negb (String.eqb s "")
  | None => false
  end.

(** [a || b] where [b] may itself be missing. *)
Definition js_or (a b : option string) : option string :=
  if truthy a then a else b.

(** [a || b] where [b] is a string. *)
Definition js_or_str (a : option string) (b : string) : string :=
  match js_or a (Some b) with
  | Some s => s
  | None => b
  end.

(** [Array.prototype.includes] on an array of strings. *)
Fixpoint includes (l : list string) (x : string) : bool :=
  match l with
  | [] => false
  | y :: l' => String.eqb y x || includes l' x
  end.

(** [Array.prototype.join] with a separator. *)
Fixpoint join (sep : string) (l : list string) : string :=
  match l with
  | [] => ""
  | [x] => x
  | x :: l' => x +:+ sep +:+ join sep l'
  end.

(** The rest of a string after a prefix, if it starts with it. *)
Fixpoint strip_prefix (pre s : string) : option string :=
  match pre, s with
  | EmptyString, _ => Some s
  | String a pre', String b s' =>
      if Ascii.eqb a b then strip_prefix pre' s' else None
  | String _ _, EmptyString => None
  end.

(** An ASCII letter or digit. *)
Definition alphanumeric (c : ascii) : bool :=
  let n := nat_of_ascii c in
  (Nat.leb 97 n && Nat.leb n 122) || (Nat.leb 65 n && Nat.leb n 90)
  || (Nat.leb 48 n && Nat.leb n 57).

(** A string is seen as its UTF-8 bytes; [encodeURIComponent] keeps the
    unreserved characters and writes any other byte as [%XX]. *)
Definition hex_digit (n : nat) : ascii :=
  ascii_of_nat (if Nat.ltb n 10 then 48 + n else 55 + n).

Definition unreserved (c : ascii) : bool :=
  let n := nat_of_ascii c in
  (Nat.leb 65 n && Nat.leb n 90) || (Nat.leb 97 n && Nat.leb n 122)
  || (Nat.leb 48 n && Nat.leb n 57)
  || existsb (Nat.eqb n) [45; 95; 46; 33; 126; 42; 39; 40; 41].

Fixpoint encodeURIComponent (s : string) : string :=
  match s with
  | EmptyString => EmptyString
  | String c s' =>
      if unreserved c then String c (encodeURIComponent s')
      else
        let n := nat_of_ascii c in
        String "%" (String (hex_digit (n / 16)) (String (hex_digit (n mod 16))
          (encodeURIComponent s')))
  end.

(** Exceptions: [new Error(message)], a [TypeError] raised by the engine at
    a property read on [undefined] or [null] (the site names the read), the
    rejection of a [fetch] or [json] promise with the platform's reason,
    and the [SyntaxError] of [querySelector] on a string that is not a
    selector. [Unmodelled] is no exception of the script: it marks a run
    that the model does not follow further (see [nameSelector]). *)
Inductive Exn :=
| Error (message : string)
| TypeError (site : string)
| Rejection (reason : string)
| SyntaxError (selector : string)
| Unmodelled (selector : string).

Inductive Completion (A : Type) :=
| Normal (a : A)
| Throw (e : Exn).
Arguments Normal {A} a.
Arguments Throw {A} e.

(** ** The schema payload *)

Module FieldSchema.
Record t := mk {
  title : option string;
  description : option string;
  type : string;
  format : option string;
  enum : option (list string)
}.
End FieldSchema.

Module UiField.
(** The members ["ui:widget"] and ["ui:placeholder"] of a per-field hint. *)
Record t := mk {
  widget : option string;
  placeholder : option string
}.
(** The literal [{}]. *)
Definition empty : t := mk None None.
End UiField.

Module Schema.
Record t := mk {
  properties : option (list (string * FieldSchema.t));
  required : option (list string)
}.
End Schema.

Module SchemaData.
Record t := mk {
  title : string;
  description : option string;
  schema : option Schema.t;
  uiSchema : option (gmap string UiField.t);
  submitButtonText : option string;
  error : option string
}.
End SchemaData.

(** ** The DOM *)

Module Control.
(** [<option value=...>text</option>] *)
Record option_ := mkOption { value : string; textContent : string }.

Inductive element :=
| select (options : list option_)
| input (type : string)
| textarea (rows : nat).

Record t := mk {
  elem : element;
  id : string;
  name : string;
  required : bool;
  placeholder : option string
}.

(** The [type] property of the element. *)
Definition type (c : t) : string :=
  match elem c with
  | select _ => "select-one"
  | input ty => ty
  | textarea _ => "textarea"
  end.
End Control.

(** One [div.form-field]: the label (its text, whether the required marker
    span was appended, its [for] attribute), the help markup appended with
    [innerHTML] when there is a description (the markup string the code
    builds), the controls that the parser creates from that markup
    ([None] when the model does not determine them, see
    [injectedControls]), and the control that the loop creates and
    appends last. *)
Record FieldDiv := mkFieldDiv {
  label_text : string;
  label_marker : bool;
  label_for : string;
  help : option string;
  injected : option (list Control.t);
  control : Control.t
}.

Inductive SectionId := loading | form_container | success_container | error_section.

Inductive JsValue :=
| JBool (b : bool)
| JNull
| JString (s : string)
| JParseFloat (text : string).   (* the Number that parseFloat(text) returns *)

Inductive Request :=
| GET (url : string)
| POST (url : string) (body : gmap string JsValue).

Record Page := mkPage {
  form_title : string;
  form_description : string;
  submit_btn : string;
  form_fields : list FieldDiv;
  error_message : string;
  success_title : string;
  output_json : gmap string JsValue;
  visible : option SectionId;
  requests : list Request
}.

(** ** The monad of the script *)

Definition M (A : Type) : Type := Page -> Page * Completion A.

Definition ret {A} (a : A) : M A := fun p => (p, Normal a).
Definition throw {A} (e : Exn) : M A := fun p => (p, Throw e).
Definition bind {A B} (m : M A) (k : A -> M B) : M B :=
  fun p =>
    match m p with
    | (p', Normal a) => k a p'
    | (p', Throw e) => (p', Throw e)
    end.
Definition try_catch {A} (m : M A) (handler : Exn -> M A) : M A :=
  fun p =>
    match m p with
    | (p', Normal a) => (p', Normal a)
    | (p', Throw e) => handler e p'
    end.
Definition modify (f : Page -> Page) : M unit := fun p => (f p, Normal tt).

Notation "'let*' x := m 'in' k" := (bind m (fun x => k))
  (at level 10, x name, m at level 100, k at level 200).
Notation "m >> k" := (bind m (fun _ => k))
  (at level 90, right associativity).

Fixpoint for_each {A} (body : A -> M unit) (l : list A) : M unit :=
  match l with
  | [] => ret tt
  | x :: l' => body x >> for_each body l'
  end.

Definition set_form_title (s : string) (p : Page) : Page :=
  mkPage s (form_description p) (submit_btn p) (form_fields p) (error_message p)
    (success_title p) (output_json p) (visible p) (requests p).
Definition set_form_description (s : string) (p : Page) : Page :=
  mkPage (form_title p) s (submit_btn p) (form_fields p) (error_message p)
    (success_title p) (output_json p) (visible p) (requests p).
Definition set_submit_btn (s : string) (p : Page) : Page :=
  mkPage (form_title p) (form_description p) s (form_fields p) (error_message p)
    (success_title p) (output_json p) (visible p) (requests p).
Definition set_form_fields (l : list FieldDiv) (p : Page) : Page :=
  mkPage (form_title p) (form_description p) (submit_btn p) l (error_message p)
    (success_title p) (output_json p) (visible p) (requests p).
Definition set_error_message (s : string) (p : Page) : Page :=
  mkPage (form_title p) (form_description p) (submit_btn p) (form_fields p) s
    (success_title p) (output_json p) (visible p) (requests p).
Definition set_success (s : string) (o : gmap string JsValue) (p : Page) : Page :=
  mkPage (form_title p) (form_description p) (submit_btn p) (form_fields p)
    (error_message p) s o (visible p) (requests p).
Definition set_visible (v : SectionId) (p : Page) : Page :=
  mkPage (form_title p) (form_description p) (submit_btn p) (form_fields p)
    (error_message p) (success_title p) (output_json p) (Some v) (requests p).
Definition log_request (r : Request) (p : Page) : Page :=
  mkPage (form_title p) (form_description p) (submit_btn p) (form_fields p)
    (error_message p) (success_title p) (output_json p) (visible p)
    (requests p ++ [r]).

(** [showSection]: every section is hidden, then the named one is shown. *)
Definition showSection (id : SectionId) : M unit := modify (set_visible id).

Definition showError (message : string) : M unit :=
  modify (set_error_message message) >> showSection error_section.

(** ** renderForm (lines 101-203) *)

(** The options of a select: the blank placeholder, then the enum values. *)
Definition selectOptions (fieldName : string) (fieldSchema : FieldSchema.t)
    (values : list string) : list Control.option_ :=
  Control.mkOption "" ("Select " +:+ js_or_str (FieldSchema.title fieldSchema) fieldName)
  :: map (fun value => Control.mkOption value value) values.

Definition is_string (o : option string) (s : string) : bool :=
  match o with
  | Some x => String.eqb x s
  | None => false
  end.

(** The [if]/[else if] chain that creates [input] (lines 128-194). *)
Definition createInput (required : list string) (uiField : UiField.t)
    (fieldName : string) (fieldSchema : FieldSchema.t) : Control.t :=
  let type := FieldSchema.type fieldSchema in
  let widget :=
    js_or (js_or (UiField.widget uiField) (FieldSchema.format fieldSchema)) (Some type) in
  match FieldSchema.enum fieldSchema with
  | Some values =>
      Control.mk (Control.select (selectOptions fieldName fieldSchema values))
        fieldName fieldName (includes required fieldName) None
  | None =>
      if String.eqb type "boolean" then
        Control.mk (Control.input "checkbox") fieldName fieldName false None
      else if String.eqb type "integer" || String.eqb type "number" then
        Control.mk (Control.input "text") fieldName fieldName
          (includes required fieldName)
          (if negb (truthy (UiField.placeholder uiField)) && String.eqb type "integer"
           then Some "Enter a number" else None)
      else if is_string widget "password" then
        Control.mk (Control.input "password") fieldName fieldName
          (includes required fieldName) None
      else if is_string widget "textarea" then
        Control.mk (Control.textarea 4) fieldName fieldName
          (includes required fieldName) None
      else
        Control.mk (Control.input "text") fieldName fieldName
          (includes required fieldName)
          (if truthy (UiField.placeholder uiField)
           then UiField.placeholder uiField else None)
  end.

(** Whether a string holds the character that opens a tag. *)
Definition hasTagOpen (s : string) : bool :=
  existsb (Ascii.eqb "<") (list_ascii_of_string s).

(** The longest prefix of letters and digits, and the rest. *)
Fixpoint spanAlphanumeric (s : string) : string * string :=
  match s with
  | EmptyString => (EmptyString, EmptyString)
  | String c rest =>
      if alphanumeric c
      then (String c (spanAlphanumeric rest).1, (spanAlphanumeric rest).2)
      else (EmptyString, s)
  end.

(** The name N when the string is exactly the tag [<input name="N">], N a
    non-empty run of letters and digits. *)
Definition inputTagName (s : string) : option string :=
  match strip_prefix ("<input name=" +:+ dquote) s with
  | Some rest =>
      let (name, tail) := spanAlphanumeric rest in
      if negb (String.eqb name "") && String.eqb tail (dquote +:+ ">")
      then Some name else None
  | None => None
  end.

(** What the HTML parser adds to the field div besides text when the help
    markup is appended with [innerHTML] (line 197): the description goes
    into the markup as it is (lines 125-126). Nothing is appended for a
    missing or empty description; a description without the character that
    opens a tag yields text only; the description [<input name="N">] yields
    one text input named N, without id. On other markup the parser decides,
    and the model gives no answer. *)
Definition injectedControls (description : option string) : option (list Control.t) :=
  if truthy description then
    if negb (hasTagOpen (default "" description)) then Some []
    else
      match inputTagName (default "" description) with
      | Some name => Some [Control.mk (Control.input "text") "" name false None]
      | None => None
      end
  else Some [].

(** One iteration of the loop once [uiField] is known. *)
Definition renderField (required : list string) (uiField : UiField.t)
    (fieldName : string) (fieldSchema : FieldSchema.t) : FieldDiv :=
  mkFieldDiv
    (js_or_str (FieldSchema.title fieldSchema) fieldName)
    (includes required fieldName)
    fieldName
    (if truthy (FieldSchema.description fieldSchema)
     then Some ("<small class=" +:+ dquote +:+ "help-text" +:+ dquote +:+ ">"
                +:+ default "" (FieldSchema.description fieldSchema) +:+ "</small>")
     else None)
    (injectedControls (FieldSchema.description fieldSchema))
    (createInput required uiField fieldName fieldSchema).

Definition appendField (f : FieldDiv) (p : Page) : Page :=
  set_form_fields (form_fields p ++ [f]) p.

(** [uiSchema[fieldName] || {}]; the read throws when [uiSchema] is missing. *)
Definition lookupUiField (uiSchema : option (gmap string UiField.t))
    (fieldName : string) : M UiField.t :=
  match uiSchema with
  | Some u => ret (default UiField.empty (u !! fieldName))
  | None => throw (TypeError "uiSchema[fieldName]")
  end.

Definition renderEntry (required : list string)
    (uiSchema : option (gmap string UiField.t))
    (entry : string * FieldSchema.t) : M unit :=
  let* uiField := lookupUiField uiSchema entry.1 in
  modify (appendField (renderField required uiField entry.1 entry.2)).

Definition renderForm (schemaData : SchemaData.t) : M unit :=
  modify (set_form_title (SchemaData.title schemaData)) >>
  modify (set_form_description (js_or_str (SchemaData.description schemaData) "")) >>
  modify (set_submit_btn (js_or_str (SchemaData.submitButtonText schemaData) "Submit")) >>
  modify (set_form_fields []) >>
  let* schema :=
    match SchemaData.schema schemaData with
    | Some s => ret s
    | None => throw (TypeError "schema.properties")
    end in
  let properties := default [] (Schema.properties schema) in
  let required := default [] (Schema.required schema) in
  for_each (renderEntry required (SchemaData.uiSchema schemaData)) properties >>
  showSection form_container.

(** ** getUrlParams (lines 8-21) *)

(** [search] holds the decoded pairs of the query string, in order. *)
Record Location := mkLocation {
  search : list (string * string);
  pathname : string
}.

(** [URLSearchParams.get]: the first value under the name, if any. *)
Definition searchParam (loc : Location) (name : string) : option string :=
  snd <$> find (fun kv => String.eqb kv.1 name) (search loc).

(** [path.match(/^\/form\/([a-zA-Z0-9]+)$/)]: the captured group. *)
Definition shortUrlMatch (path : string) : option string :=
  match strip_prefix "/form/" path with
  | Some rest =>
      if negb (String.eqb rest "") && forallb alphanumeric (list_ascii_of_string rest)
      then Some rest else None
  | None => None
  end.

Module Params.
Record t := mk {
  fields : string;
  context : option string;
  sessionId : option string;
  isShortUrl : bool
}.
End Params.

Definition getUrlParams (loc : Location) : Params.t :=
  Params.mk
    (js_or_str (searchParam loc "fields") "")
    (js_or (searchParam loc "context") None)
    (js_or (searchParam loc "session_id") (shortUrlMatch (pathname loc)))
    (match shortUrlMatch (pathname loc) with Some _ => true | None => false end).

(** ** The network *)

(** What a [fetch] followed by [json()] yields: the request is rejected,
    or a response arrives with its [ok] flag and a body that either fails
    to parse (with the platform's reason) or is the JSON value. *)
Inductive Fetched (A : Type) :=
| NetworkFailure (reason : string)
| Response (ok : bool) (json : string + A).
Arguments NetworkFailure {A} reason.
Arguments Response {A} ok json.

Module ConfigData.
Record t := mk {
  success : bool;
  error : option string;
  fields : option (list string);
  context : option string;
  schema : option SchemaData.t
}.
End ConfigData.

Module SubmitResult.
Record t := mk { error : option string }.
End SubmitResult.

(** The servers behind the three endpoints, and the text the engine gives
    to the [TypeError] raised at a site. *)
Record World := mkWorld {
  form_config : string -> Fetched ConfigData.t;
  api_schema : string -> Fetched SchemaData.t;
  api_submit : gmap string JsValue -> Fetched SubmitResult.t;
  engine_message : string -> string
}.

Definition message (w : World) (e : Exn) : string :=
  match e with
  | Error m => m
  | TypeError site => engine_message w site
  | Rejection reason => reason
  | SyntaxError selector => engine_message w selector
  | Unmodelled selector => engine_message w selector
  end.

(** [await fetch(...)] then [await response.json()]: the request is logged;
    the result is the pair of [response.ok] and the parsed body. *)
Definition fetch {A} (r : Request) (answer : Fetched A) : M (bool * A) :=
  modify (log_request r) >>
  match answer with
  | NetworkFailure reason => throw (Rejection reason)
  | Response _ (inl reason) => throw (Rejection reason)
  | Response ok (inr body) => ret (ok, body)
  end.

(** A value placed in a template literal. *)
Definition template (o : option string) : string :=
  match o with
  | Some s => s
  | None => "null"
  end.

(** ** generateForm (lines 38-98) *)

(** Lines 39-66: the parameters of the URL and, for a short URL, their
    replacement by the stored configuration. [None] stands for the
    [return] of the catch block. *)
Definition resolveRequest (w : World) (loc : Location)
    : M (option (Params.t * option SchemaData.t)) :=
  let params := getUrlParams loc in
  if Params.isShortUrl params && truthy (Params.sessionId params) then
    showSection loading >>
    try_catch
      (let url := "/api/form-config/" +:+ template (Params.sessionId params) in
       let* r := fetch (GET url) (form_config w url) in
       let configResponse_ok := r.1 in
       let configData := r.2 in
       if negb configResponse_ok || negb (ConfigData.success configData) then
         throw (Error (js_or_str (ConfigData.error configData) "Form config not found"))
       else
         let* fields :=
           match ConfigData.fields configData with
           | Some l => ret (join "," l)
           | None => throw (TypeError "configData.fields.join")
           end in
         ret (Some (Params.mk fields (ConfigData.context configData)
                      (Params.sessionId params) (Params.isShortUrl params),
                    ConfigData.schema configData)))
      (fun error => showError ("Error: " +:+ message w error) >> ret None)
  else ret (Some (params, None)).

Definition missingFieldsMessage : string :=
  "No fields specified. Add ?fields=field1,field2 to the URL.".

Definition schemaUrl (params : Params.t) : string :=
  "/api/schema?fields=" +:+ encodeURIComponent (Params.fields params) +:+
  (if truthy (Params.context params)
   then "&context=" +:+ encodeURIComponent (template (Params.context params))
   else "").

(** Lines 68-97, from the resolved parameters on. *)
Definition loadForm (w : World) (params : Params.t)
    (preGeneratedSchema : option SchemaData.t) : M unit :=
  if negb (truthy (Some (Params.fields params))) then
    showError missingFieldsMessage
  else
    showSection loading >>
    try_catch
      (let* data :=
         match preGeneratedSchema with
         | Some d => ret d
         | None =>
             let url := schemaUrl params in
             let* r := fetch (GET url) (api_schema w url) in
             if negb r.1 then
               throw (Error (js_or_str (SchemaData.error r.2) "Failed to generate form"))
             else ret r.2
         end in
       renderForm data)
      (fun error => showError ("Error generating form: " +:+ message w error)).

Definition generateForm (w : World) (loc : Location) : M unit :=
  let* resolved := resolveRequest w loc in
  match resolved with
  | None => ret tt
  | Some (params, preGeneratedSchema) => loadForm w params preGeneratedSchema
  end.

(** ** The submit listener (lines 206-253) *)

(** A control of the form together with what the user did to it: the text
    typed, whether the box is ticked, the index of the chosen option. *)
Record Live := mkLive {
  ctl : Control.t;
  typed : string;
  checked : bool;
  selectedIndex : nat
}.

(** A control as [renderForm] leaves it, before any input. *)
Definition fresh (f : FieldDiv) : Live := mkLive (control f) "" false 0.

(** The [value] property of a control. *)
Definition fieldValue (f : Live) : string :=
  match Control.elem (ctl f) with
  | Control.select options =>
      match options !! selectedIndex f with
      | Some o => Control.value o
      | None => ""
      end
  | Control.input type => if String.eqb type "checkbox" then "on" else typed f
  | Control.textarea _ => typed f
  end.

(** The entries [new FormData(form)] holds for one control: none for a
    control with an empty name, for a box that is not ticked or for a
    select without a chosen option; otherwise its name and value. *)
Definition formDataEntry (f : Live) : list (string * string) :=
  let name := Control.name (ctl f) in
  if String.eqb name "" then []
  else
    match Control.elem (ctl f) with
    | Control.select options =>
        match options !! selectedIndex f with
        | Some o => [(name, Control.value o)]
        | None => []
        end
    | Control.input type =>
        if String.eqb type "checkbox"
        then (if checked f then [(name, "on")] else [])
        else [(name, typed f)]
    | Control.textarea _ => [(name, typed f)]
    end.

Definition formData (form : list Live) : list (string * string) :=
  flat_map formDataEntry form.

(** *** The selector of line 213

    The listener looks each key up with the selector made of [[name="],
    the key as it is, and ["]]. The key is thus read by the CSS tokenizer
    as the inside of a quoted string. *)

Definition isChar (n : nat) (c : ascii) : bool := Nat.eqb (nat_of_ascii c) n.

Definition lineFeed : ascii := ascii_of_nat 10.

Definition isHexDigit (c : ascii) : bool :=
  let n := nat_of_ascii c in
  (Nat.leb 48 n && Nat.leb n 57) || (Nat.leb 65 n && Nat.leb n 70)
  || (Nat.leb 97 n && Nat.leb n 102).

Definition hexValue (c : ascii) : N :=
  let n := nat_of_ascii c in
  N.of_nat (if Nat.leb n 57 then n - 48 else if Nat.leb n 70 then n - 55 else n - 87).

(** The UTF-8 bytes of a code point. *)
Definition utf8 (cp : N) : string :=
  let byte (n : N) := ascii_of_N n in
  if (cp <? 128)%N then String (byte cp) ""
  else if (cp <? 2048)%N then
    String (byte (192 + cp / 64)%N) (String (byte (128 + cp mod 64)%N) "")
  else if (cp <? 65536)%N then
    String (byte (224 + cp / 4096)%N)
      (String (byte (128 + (cp / 64) mod 64)%N) (String (byte (128 + cp mod 64)%N) ""))
  else
    String (byte (240 + cp / 262144)%N)
      (String (byte (128 + (cp / 4096) mod 64)%N)
         (String (byte (128 + (cp / 64) mod 64)%N) (String (byte (128 + cp mod 64)%N) ""))).

(** The code point an escape stands for: U+FFFD for zero, a surrogate or a
    number beyond the last code point. *)
Definition escapedCodePoint (v : N) : N :=
  if (v =? 0)%N || ((55296 <=? v)%N && (v <=? 57343)%N) || (1114111 <? v)%N
  then 65533%N else v.

(** The input of the tokenizer: CR, FF and CR LF become LF, and NUL
    becomes U+FFFD. *)
Fixpoint preprocess (s : string) : string :=
  match s with
  | EmptyString => EmptyString
  | String c rest =>
      if isChar 13 c then
        match rest with
        | String d rest' =>
            if isChar 10 d then String lineFeed (preprocess rest')
            else String lineFeed (preprocess rest)
        | EmptyString => String lineFeed EmptyString
        end
      else if isChar 12 c then String lineFeed (preprocess rest)
      else if isChar 0 c then utf8 65533 +:+ preprocess rest
      else String c (preprocess rest)
  end.

(** Where the tokenizer is inside the quoted string: in plain text, just
    after a backslash, or inside a hexadecimal escape of which some digits
    have been read. *)
Inductive Scan :=
| InValue
| Escaped
| InHex (value : N) (digits : nat).

(** What the selector built from a key is: the attribute selector for a
    value; no selector at all; or a string in which the key has closed the
    quoted value itself (by a quote, or by a final backslash that escapes
    the closing quote), so that the rest is read as selector syntax. *)
Inductive AttrSelector :=
| Matches (value : string)
| Invalid
| Continues.

(** The string token, code point by code point: a quote ends the value, a
    line feed makes a bad string, a backslash starts an escape (a line
    feed after it is skipped; up to six hexadecimal digits and one
    following white space give a code point; any other character stands
    for itself). At the end of the key the closing quote of the template
    follows. *)
Fixpoint scanValue (state : Scan) (acc : string) (s : string) : AttrSelector :=
  match s with
  | EmptyString =>
      match state with
      | InValue => Matches acc
      | Escaped => Continues
      | InHex v _ => Matches (acc +:+ utf8 (escapedCodePoint v))
      end
  | String c rest =>
      let plain (acc' : string) :=
        if isChar 34 c then Continues
        else if isChar 10 c then Invalid
        else if isChar 92 c then scanValue Escaped acc' rest
        else scanValue InValue (acc' +:+ String c "") rest in
      match state with
      | InValue => plain acc
      | Escaped =>
          if isChar 10 c then scanValue InValue acc rest
          else if isHexDigit c then scanValue (InHex (hexValue c) 1) acc rest
          else scanValue InValue (acc +:+ String c "") rest
      | InHex v digits =>
          if isHexDigit c && Nat.ltb digits 6
          then scanValue (InHex (16 * v + hexValue c)%N (S digits)) acc rest
          else
            let acc' := acc +:+ utf8 (escapedCodePoint v) in
            if isChar 32 c || isChar 9 c || isChar 10 c
            then scanValue InValue acc' rest
            else plain acc'
      end
  end.

Definition nameSelector (key : string) : AttrSelector :=
  scanValue InValue "" (preprocess key).

(** The text of the selector, as the template literal builds it. *)
Definition nameSelectorText (key : string) : string :=
  "[name=" +:+ dquote +:+ key +:+ dquote +:+ "]".

(** The first element of the form whose [name] attribute is a given value;
    the named elements of the form are its controls. *)
Definition querySelectorByName (form : list Live) (value : string) : option Live :=
  find (fun f => String.eqb (Control.name (ctl f)) value) form.

(** [form.querySelector] on the selector built from a key (line 213): a
    [SyntaxError] when the string is no selector, the first control whose
    name is the value that the selector spells, or [null]. When the key
    closes the quoted value the result depends on the selector syntax that
    the key goes on with: the model stops there. *)
Definition querySelector (form : list Live) (key : string) : Completion (option Live) :=
  match nameSelector key with
  | Matches value => Normal (querySelectorByName form value)
  | Invalid => Throw (SyntaxError (nameSelectorText key))
  | Continues => Throw (Unmodelled (nameSelectorText key))
  end.

(** [data[key] = v] for a primitive [v]: an own property is written,
    except under the key [__proto__], where nothing is stored. *)
Definition setProperty (key : string) (v : JsValue)
    (data : gmap string JsValue) : gmap string JsValue :=
  if String.eqb key "__proto__" then data else <[key := v]> data.

(** The body of the loop over the entries (lines 213-220). *)
Definition collectEntry (form : list Live) (data : gmap string JsValue)
    (entry : string * string) : Completion (gmap string JsValue) :=
  match querySelector form entry.1 with
  | Throw e => Throw e
  | Normal None => Throw (TypeError "field.type")
  | Normal (Some field) =>
      if String.eqb (Control.type (ctl field)) "checkbox" then
        Normal (setProperty entry.1 (JBool (checked field)) data)
      else if String.eqb (Control.type (ctl field)) "number" then
        Normal (setProperty entry.1
                  (if truthy (Some (fieldValue field))
                   then JParseFloat (fieldValue field) else JNull) data)
      else Normal (setProperty entry.1 (JString entry.2) data)
  end.

Fixpoint collectEntries (form : list Live) (entries : list (string * string))
    (data : gmap string JsValue) : Completion (gmap string JsValue) :=
  match entries with
  | [] => Normal data
  | entry :: rest =>
      match collectEntry form data entry with
      | Normal data' => collectEntries form rest data'
      | Throw e => Throw e
      end
  end.

(** Lines 224-227. *)
Definition addSessionId (loc : Location) (data : gmap string JsValue)
    : gmap string JsValue :=
  let params := getUrlParams loc in
  if truthy (Params.sessionId params)
  then <["_session_id" := JString (template (Params.sessionId params))]> data
  else data.

(** Lines 209-227: the object that is posted. *)
Definition submissionPayload (loc : Location) (form : list Live)
    : Completion (gmap string JsValue) :=
  match collectEntries form (formData form) ∅ with
  | Normal data => Normal (addSessionId loc data)
  | Throw e => Throw e
  end.

Definition getPage : M Page := fun p => (p, Normal p).

Definition submitListener (w : World) (loc : Location) (form : list Live) : M unit :=
  let* data :=
    match submissionPayload loc form with
    | Normal data => ret data
    | Throw e => throw e
    end in
  try_catch
    (let* r := fetch (POST "/api/submit" data) (api_submit w data) in
     if negb r.1 then
       throw (Error (js_or_str (SubmitResult.error r.2) "Failed to submit form"))
     else
       let* p := getPage in
       modify (set_success (form_title p) data) >>
       showSection success_container)
    (fun error => showError ("Error submitting form: " +:+ message w error)).

(** ** Auxiliary definitions for the statements *)

(** The per-field hint the loop of [renderForm] works with. *)
Definition hintOf (uiSchema : gmap string UiField.t) (fieldName : string) : UiField.t :=
  default UiField.empty (uiSchema !! fieldName).

(** The children of [#form-fields] after a complete run of the loop. *)
Definition renderedFields (required : list string) (uiSchema : gmap string UiField.t)
    (properties : list (string * FieldSchema.t)) : list FieldDiv :=
  map (fun entry => renderField required (hintOf uiSchema entry.1) entry.1 entry.2)
    properties.

(** Whether a control is the toggle (a checkbox). *)
Definition isToggle (c : Control.t) : bool := String.eqb (Control.type c) "checkbox".

(** Whether a request goes to the schema-generation endpoint. *)
Definition isSchemaRequest (r : Request) : bool :=
  match r with
  | GET url => String.prefix "/api/schema" url
  | POST _ _ => false
  end.

(** The user types a text into the control of that name, or ticks it. *)
Definition typeInto (name text : string) (form : list Live) : list Live :=
  map (fun f => if String.eqb (Control.name (ctl f)) name
                then mkLive (ctl f) text (checked f) (selectedIndex f) else f) form.

Definition tick (name : string) (form : list Live) : list Live :=
  map (fun f => if String.eqb (Control.name (ctl f)) name
                then mkLive (ctl f) (typed f) true (selectedIndex f) else f) form.

(** Whether a posted value is a boolean or a string. *)
Definition isBoolOrString (v : JsValue) : bool :=
  match v with
  | JBool _ | JString _ => true
  | JNull | JParseFloat _ => false
  end.




(** A description that adds text only to the field div. *)
Definition textOnly (description : option string) : bool :=
  negb (truthy description) || negb (hasTagOpen (default "" description)).

(** The controls of a field div, in document order: those that the help
    markup brings, then the created one. *)
Definition divControls (field : FieldDiv) : option (list Control.t) :=
  (fun added => (added ++ [control field])%list) <$> injected field.

(** The controls of [#form-fields], in document order. *)
Fixpoint formControls (fields : list FieldDiv) : option (list Control.t) :=
  match fields with
  | [] => Some []
  | field :: rest =>
      match divControls field, formControls rest with
      | Some here, Some there => Some (here ++ there)%list
      | _, _ => None
      end
  end.

(** Whether a field is rendered as the toggle: boolean, without enum. *)
Definition toggleField (fieldSchema : FieldSchema.t) : bool :=
  match FieldSchema.enum fieldSchema with
  | Some _ => false
  | None => String.eqb (FieldSchema.type fieldSchema) "boolean"
  end.

(** A page before the script has run. *)
Definition blankPage : Page := mkPage "" "" "" [] "" "" ∅ None [].

(** The click listener of the fill-again button (lines 256-258). *)
Definition fillAgain : M unit := showSection form_container.

(** The listener of DOMContentLoaded (lines 261-263). *)
Definition onDOMContentLoaded (w : World) (loc : Location) : M unit :=
  generateForm w loc.

(** The URL of the configuration lookup for a location. *)
Definition configUrl (loc : Location) : string :=
  "/api/form-config/" +:+ template (Params.sessionId (getUrlParams loc)).

(** A character that cannot act as a delimiter inside a query string: an
    unreserved one or the percent sign. *)
Definition urlSafe (c : ascii) : bool := unreserved c || Ascii.eqb c "%".

(** The page on which [showError] has been called with a text. *)
Definition errorPage (text : string) (p : Page) : Page :=
  set_visible error_section (set_error_message text p).

(** The [catch] block of the second [try] of [generateForm]. *)
Definition renderFailure (w : World) (error : Exn) : M unit :=
  showError ("Error generating form: " +:+ message w error).

(** * Properties *)

(** ** The renderer *)

Lemma for_each_renderEntry required uiSchema properties p :
  for_each (renderEntry required (Some uiSchema)) properties p
  = (set_form_fields (form_fields p ++ renderedFields required uiSchema properties) p,
     Normal tt).
Proof.
  revert p. induction properties as [|[fieldName fieldSchema] rest IH]; intros p.
  - cbn. rewrite app_nil_r. by destruct p.
  - cbn [for_each]. unfold bind at 1. unfold renderEntry at 1.
    cbn. rewrite IH. cbn. f_equal. unfold set_form_fields. cbn.
    by rewrite <- app_assoc.
Qed.

(** A payload whose [schema] and [uiSchema] are present renders completely:
    the old fields are replaced by one field per entry. *)
Lemma renderForm_complete title description properties required uiSchema
    submitButtonText error p :
  renderForm (SchemaData.mk title description
                (Some (Schema.mk properties required)) (Some uiSchema)
                submitButtonText error) p
  = (mkPage title (js_or_str description "") (js_or_str submitButtonText "Submit")
       (renderedFields (default [] required) uiSchema (default [] properties))
       (error_message p) (success_title p) (output_json p)
       (Some form_container) (requests p),
     Normal tt).
Proof.
  unfold renderForm. cbn -[for_each].
  unfold bind, modify, showSection, ret. cbn -[for_each].
  rewrite for_each_renderEntry. reflexivity.
Qed.

Lemma renderedFields_lookup required uiSchema properties i fieldName fieldSchema :
  properties !! i = Some (fieldName, fieldSchema) ->
  renderedFields required uiSchema properties !! i
  = Some (renderField required (hintOf uiSchema fieldName) fieldName fieldSchema).
Proof.
  intros H. unfold renderedFields. rewrite list_lookup_fmap, H. reflexivity.
Qed.

Lemma includes_elem_of (l : list string) (x : string) :
  includes l x = true <-> x ∈ l.
Proof.
  induction l as [|y l IH]; cbn.
  - split; [discriminate | by intros ?%elem_of_nil].
  - rewrite orb_true_iff, String.eqb_eq, IH, elem_of_cons.
    split; (intros [H|H]; [left; congruence | by right]).
Qed.

(** The created control carries the field name as id and name, and its
    [required] flag is the membership test unless it is the checkbox. *)
Lemma createInput_shape required uiField fieldName fieldSchema :
  let c := createInput required uiField fieldName fieldSchema in
  Control.id c = fieldName /\ Control.name c = fieldName /\
  Control.required c = negb (isToggle c) && includes required fieldName.
Proof.
  unfold createInput, isToggle, Control.type.
  destruct (FieldSchema.enum fieldSchema); [done|].
  repeat (case_match; [done|]). done.
Qed.

(** The created control is the checkbox exactly for a boolean field
    without enum. *)
Lemma createInput_toggle required uiField fieldName fieldSchema :
  isToggle (createInput required uiField fieldName fieldSchema) = toggleField fieldSchema.
Proof.
  unfold createInput, isToggle, toggleField, Control.type.
  destruct (FieldSchema.enum fieldSchema); [done|].
  destruct (String.eqb (FieldSchema.type fieldSchema) "boolean"); [done|].
  destruct (_ || _); [done|].
  destruct (is_string _ "password"); [done|].
  by destruct (is_string _ "textarea").
Qed.

(** C3 (the code departs from it). The description goes into the field div
    as markup, so that a description that holds a tag brings elements of
    its own: for the description [<input name="extra">] the div of the one
    field holds two controls, the injected one before the created one.
    When every description adds text only (none holds the character that
    opens a tag), [renderForm] does what the specification says: it returns
    normally and leaves one field per entry of [properties], in the order
    of the entries, whose only control is the created one; the label
    points to it ([for] = id = name = the key) and shows the title or the
    key; the control is the checkbox exactly when the field is boolean
    without enum, and it is marked required exactly when the key is in
    [required] and the field is not such a boolean. *)
Theorem C3_one_labeled_control_per_property :
  (forall title description properties required uiSchema submitButtonText error p,
     Forall (fun entry : string * FieldSchema.t =>
               textOnly (FieldSchema.description entry.2) = true) properties ->
     let out := renderForm (SchemaData.mk title description
                              (Some (Schema.mk (Some properties) (Some required)))
                              (Some uiSchema) submitButtonText error) p in
     out.2 = Normal tt /\
     Forall2 (fun (entry : string * FieldSchema.t) (field : FieldDiv) =>
                divControls field = Some [control field] /\
                label_for field = entry.1 /\
                Control.id (control field) = entry.1 /\
                Control.name (control field) = entry.1 /\
                label_text field = js_or_str (FieldSchema.title entry.2) entry.1 /\
                (isToggle (control field) = true
                 <-> FieldSchema.enum entry.2 = None
                     /\ FieldSchema.type entry.2 = "boolean") /\
                (Control.required (control field) = true
                 <-> entry.1 ∈ required
                     /\ ~ (FieldSchema.enum entry.2 = None
                           /\ FieldSchema.type entry.2 = "boolean")))
             properties (form_fields out.1)) /\
  (let fieldSchema :=
     FieldSchema.mk None (Some ("<input name=" +:+ dquote +:+ "extra" +:+ dquote +:+ ">"))
       "string" None None in
   let out := renderForm (SchemaData.mk "T" None
                            (Some (Schema.mk (Some [("name", fieldSchema)]) (Some [])))
                            (Some ∅) None None) blankPage in
   out.2 = Normal tt /\
   List.length (form_fields out.1) = 1 /\
   formControls (form_fields out.1)
   = Some [Control.mk (Control.input "text") "" "extra" false None;
           Control.mk (Control.input "text") "name" "name" false None]).
Proof.
  split; [|by vm_compute].
  intros title description properties required uiSchema submitButtonText error p Htext.
  cbv zeta. rewrite renderForm_complete. cbn [fst snd form_fields default from_option].
  unfold id. split; [reflexivity|].
  unfold renderedFields. apply Forall2_fmap_r, Forall_Forall2_diag, Forall_forall.
  intros [fieldName fieldSchema] Hin. rewrite Forall_forall in Htext.
  specialize (Htext _ Hin). cbn [snd] in Htext.
  destruct (createInput_shape required (hintOf uiSchema fieldName) fieldName fieldSchema)
    as (Hid & Hname & Hreq).
  pose proof (createInput_toggle required (hintOf uiSchema fieldName) fieldName fieldSchema)
    as Htoggle.
  assert (toggleField fieldSchema = true
          <-> FieldSchema.enum fieldSchema = None
              /\ FieldSchema.type fieldSchema = "boolean") as Hfield.
  { unfold toggleField. destruct (FieldSchema.enum fieldSchema); [by split; [|intros []]|].
    rewrite String.eqb_eq. tauto. }
  cbn -[createInput isToggle js_or_str elem_of]. split_and!; try done.
  - unfold divControls, injectedControls. cbn [injected control].
    unfold textOnly in Htext. destruct (truthy (FieldSchema.description fieldSchema));
      [|reflexivity].
    cbn [negb orb] in Htext. by rewrite Htext.
  - by rewrite Htoggle.
  - rewrite Hreq, Htoggle, andb_true_iff, negb_true_iff, includes_elem_of.
    destruct (toggleField fieldSchema).
    + split; [by intros [[=] _] | intros [_ Hno]; destruct Hno; by apply Hfield].
    + split; [|by intros [? _]].
      intros [_ Hrequired]. split; [exact Hrequired|]. by intros [=]%Hfield.
Qed.

(** C6. A field with an enum of n values is rendered as a select with
    n+1 options: a placeholder with the empty value whose text is
    "Select " followed by the title (by the key when the title is missing
    or empty), then one option per value, in order, with value and text
    equal to it. *)
Theorem C6_enum_select_options
    title description properties required uiSchema submitButtonText error p
    i fieldName fieldSchema values :
  properties !! i = Some (fieldName, fieldSchema) ->
  FieldSchema.enum fieldSchema = Some values ->
  let out := renderForm (SchemaData.mk title description
                           (Some (Schema.mk (Some properties) (Some required)))
                           (Some uiSchema) submitButtonText error) p in
  exists field blank options,
    form_fields out.1 !! i = Some field /\
    Control.elem (control field) = Control.select options /\
    List.length options = S (List.length values) /\
    options = blank :: map (fun value => Control.mkOption value value) values /\
    Control.value blank = "" /\
    (forall t, FieldSchema.title fieldSchema = Some t -> t <> "" ->
               Control.textContent blank = "Select " +:+ t) /\
    (FieldSchema.title fieldSchema = None \/ FieldSchema.title fieldSchema = Some "" ->
     Control.textContent blank = "Select " +:+ fieldName).
Proof.
  intros Hentry Henum out. subst out. rewrite renderForm_complete.
  cbn [fst form_fields default from_option]. unfold id.
  eexists _, _, _. split; [by apply renderedFields_lookup|].
  cbn [control renderField]. unfold createInput. rewrite Henum.
  cbn [Control.elem]. split; [reflexivity|]. unfold selectOptions.
  split; [cbn; by rewrite length_map|]. split; [reflexivity|].
  cbn [Control.value Control.textContent]. split; [reflexivity|]. split.
  - intros t -> Ht. unfold js_or_str, js_or, truthy.
    destruct (String.eqb_spec t ""); [done|reflexivity].
  - by intros [-> | ->].
Qed.

Lemma C6_enum_select_options_witness :
  let fieldSchema := FieldSchema.mk (Some "Colour") None "string" None (Some ["a"; "b"; "c"]) in
  exists field blank options,
    form_fields (renderForm (SchemaData.mk "T" None
                   (Some (Schema.mk (Some [("colour", fieldSchema)]) (Some [])))
                   (Some ∅) None None) blankPage).1 !! 0 = Some field /\
    Control.elem (control field) = Control.select options /\
    List.length options = 4 /\
    options = blank :: map (fun value => Control.mkOption value value) ["a"; "b"; "c"] /\
    Control.value blank = "" /\
    (forall t, Some "Colour" = Some t -> t <> "" ->
               Control.textContent blank = "Select " +:+ t) /\
    (Some "Colour" = None \/ Some "Colour" = Some "" ->
     Control.textContent blank = "Select " +:+ "colour").
Proof.
  intros fieldSchema.
  exact (C6_enum_select_options "T" None [("colour", fieldSchema)] [] ∅ None None
           blankPage 0 "colour" fieldSchema ["a"; "b"; "c"] eq_refl eq_refl).
Defined.

(** C9 fails as stated: an integer field that has an enum is rendered as a
    select, which receives no placeholder. *)
Lemma C9_counterexample :
  let fieldSchema := FieldSchema.mk None None "integer" None (Some ["1"; "2"]) in
  FieldSchema.type fieldSchema = "integer" /\
  (∅ : gmap string UiField.t) !! "level" = None /\
  exists field,
    form_fields (renderForm (SchemaData.mk "T" None
                   (Some (Schema.mk (Some [("level", fieldSchema)]) (Some [])))
                   (Some ∅) None None) blankPage).1 = [field] /\
    Control.placeholder (control field) <> Some "Enter a number".
Proof.
  cbv zeta. split; [reflexivity|]. split; [reflexivity|].
  eexists. split; [reflexivity|]. cbn. discriminate.
Qed.

(** C9, amended. An integer field without enum and without a placeholder
    hint (missing or empty) gets the placeholder "Enter a number"; a number
    field without a placeholder hint gets no placeholder. *)
Theorem C9_integer_placeholder
    title description properties required uiSchema submitButtonText error p
    i fieldName fieldSchema :
  properties !! i = Some (fieldName, fieldSchema) ->
  truthy (UiField.placeholder (hintOf uiSchema fieldName)) = false ->
  let out := renderForm (SchemaData.mk title description
                           (Some (Schema.mk (Some properties) (Some required)))
                           (Some uiSchema) submitButtonText error) p in
  exists field,
    form_fields out.1 !! i = Some field /\
    (FieldSchema.type fieldSchema = "integer" -> FieldSchema.enum fieldSchema = None ->
     Control.placeholder (control field) = Some "Enter a number") /\
    (FieldSchema.type fieldSchema = "number" ->
     Control.placeholder (control field) = None).
Proof.
  intros Hentry Hhint out. subst out. rewrite renderForm_complete.
  cbn [fst form_fields default from_option]. unfold id.
  eexists. split; [by apply renderedFields_lookup|].
  cbn [control renderField]. unfold createInput. rewrite Hhint. split.
  - intros -> ->. reflexivity.
  - intros ->. by destruct (FieldSchema.enum fieldSchema).
Qed.

Lemma C9_integer_placeholder_witness :
  let fieldSchema := FieldSchema.mk None None "integer" None None in
  exists field,
    form_fields (renderForm (SchemaData.mk "T" None
                   (Some (Schema.mk (Some [("age", fieldSchema)]) (Some [])))
                   (Some ∅) None None) blankPage).1 !! 0 = Some field /\
    ("integer" = "integer" -> (None : option (list string)) = None ->
     Control.placeholder (control field) = Some "Enter a number") /\
    ("integer" = "number" -> Control.placeholder (control field) = None).
Proof.
  intros fieldSchema.
  exact (C9_integer_placeholder "T" None [("age", fieldSchema)] [] ∅ None None
           blankPage 0 "age" fieldSchema eq_refl eq_refl).
Defined.

(** C4 fails as stated: the format "password" does not suffice when the
    hint names another widget; here the hint "textarea" wins and the field
    is rendered as a textarea. *)
Lemma C4_counterexample :
  let fieldSchema := FieldSchema.mk None None "string" (Some "password") None in
  let uiSchema : gmap string UiField.t := {[ "secret" := UiField.mk (Some "textarea") None ]} in
  FieldSchema.enum fieldSchema = None /\
  FieldSchema.format fieldSchema = Some "password" /\
  FieldSchema.type fieldSchema <> "boolean" /\
  FieldSchema.type fieldSchema <> "integer" /\
  FieldSchema.type fieldSchema <> "number" /\
  exists field,
    form_fields (renderForm (SchemaData.mk "T" None
                   (Some (Schema.mk (Some [("secret", fieldSchema)]) (Some [])))
                   (Some uiSchema) None None) blankPage).1 = [field] /\
    Control.elem (control field) = Control.textarea 4 /\
    Control.elem (control field) <> Control.input "password".
Proof.
  cbv zeta. split_and!; try done.
  eexists. split; [reflexivity|]. split; [reflexivity | discriminate].
Qed.

(** C4, amended. For a field without enum whose type is not boolean,
    integer or number: when the hint widget is "password", or the hint has
    no widget (missing or empty) and the format is "password", the control
    is a password input; the textarea test comes after this one. *)
Theorem C4_password_control
    title description properties required uiSchema submitButtonText error p
    i fieldName fieldSchema :
  properties !! i = Some (fieldName, fieldSchema) ->
  FieldSchema.enum fieldSchema = None ->
  FieldSchema.type fieldSchema <> "boolean" ->
  FieldSchema.type fieldSchema <> "integer" ->
  FieldSchema.type fieldSchema <> "number" ->
  UiField.widget (hintOf uiSchema fieldName) = Some "password"
  \/ (truthy (UiField.widget (hintOf uiSchema fieldName)) = false
      /\ FieldSchema.format fieldSchema = Some "password") ->
  let out := renderForm (SchemaData.mk title description
                           (Some (Schema.mk (Some properties) (Some required)))
                           (Some uiSchema) submitButtonText error) p in
  exists field,
    form_fields out.1 !! i = Some field /\
    Control.elem (control field) = Control.input "password" /\
    Control.type (control field) = "password".
Proof.
  intros Hentry Henum Hb Hi Hn Hpw out. subst out. rewrite renderForm_complete.
  cbn [fst form_fields default from_option]. unfold id.
  eexists. split; [by apply renderedFields_lookup|].
  cbn [control renderField]. unfold Control.type, createInput. rewrite Henum.
  apply String.eqb_neq in Hb, Hi, Hn. rewrite Hb, Hi, Hn. cbn [orb].
  unfold js_or. destruct Hpw as [Hw | [Hw Hf]]; rewrite Hw; [done|].
  rewrite Hf. done.
Qed.

Lemma C4_password_control_witness :
  let fieldSchema := FieldSchema.mk None None "string" (Some "password") None in
  exists field,
    form_fields (renderForm (SchemaData.mk "T" None
                   (Some (Schema.mk (Some [("secret", fieldSchema)]) (Some [])))
                   (Some ∅) None None) blankPage).1 !! 0 = Some field /\
    Control.elem (control field) = Control.input "password" /\
    Control.type (control field) = "password".
Proof.
  intros fieldSchema.
  refine (C4_password_control "T" None [("secret", fieldSchema)] [] ∅ None None
            blankPage 0 "secret" fieldSchema eq_refl eq_refl _ _ _
            (or_intror (conj eq_refl eq_refl))); discriminate.
Defined.

(** C10. With a first entry in [properties] and no [uiSchema] member,
    [renderForm] throws the TypeError of the hint lookup, before any field
    is attached. A missing [properties] is read as the empty object, also
    without [uiSchema], and a missing [required] as the empty array: the
    call then returns normally. *)
Theorem C10_uiSchema_partial
    title description required uiSchema submitButtonText error entry properties p :
  (exists p', renderForm (SchemaData.mk title description
                  (Some (Schema.mk (Some (entry :: properties)) required))
                  None submitButtonText error) p
               = (p', Throw (TypeError "uiSchema[fieldName]"))
              /\ form_fields p' = []) /\
  (let out := renderForm (SchemaData.mk title description
                  (Some (Schema.mk None required)) uiSchema submitButtonText error) p in
   out = renderForm (SchemaData.mk title description
                  (Some (Schema.mk (Some []) required)) uiSchema submitButtonText error) p
   /\ out.2 = Normal tt /\ form_fields out.1 = []) /\
  (forall hints,
   let out := renderForm (SchemaData.mk title description
                  (Some (Schema.mk (Some (entry :: properties)) None))
                  (Some hints) submitButtonText error) p in
   out = renderForm (SchemaData.mk title description
                  (Some (Schema.mk (Some (entry :: properties)) (Some [])))
                  (Some hints) submitButtonText error) p
   /\ out.2 = Normal tt
   /\ Forall (fun field => Control.required (control field) = false) (form_fields out.1)).
Proof.
  split_and!.
  - unfold renderForm, bind, modify, throw. cbn. eexists. split; reflexivity.
  - cbv zeta. split; [reflexivity|]. split; reflexivity.
  - intros hints. cbv zeta. rewrite !renderForm_complete. split; [reflexivity|].
    split; [reflexivity|]. cbn [fst form_fields default from_option]. unfold id.
    unfold renderedFields. apply Forall_fmap, Forall_forall. intros [k fs] _.
    cbn. pose proof (createInput_shape [] (hintOf hints k) k fs) as (_ & _ & ->).
    cbn. by rewrite andb_false_r.
Qed.

(** ** The submit listener *)

(** No control that [renderForm] creates has the type "number": the
    branch of the listener that parses numbers is never taken on a
    rendered form. *)
Lemma createInput_type_not_number required uiField fieldName fieldSchema :
  Control.type (createInput required uiField fieldName fieldSchema) <> "number".
Proof.
  unfold createInput.
  destruct (FieldSchema.enum fieldSchema); [discriminate|].
  destruct (String.eqb _ "boolean"); [discriminate|].
  destruct (_ || _); [discriminate|].
  destruct (is_string _ "password"); [discriminate|].
  destruct (is_string _ "textarea"); discriminate.
Qed.

(** C1 (the code departs from it). The integer field "age" is rendered as
    a text input, so the listener stores the raw text: the empty string
    when the control is left empty (not null), the string "42" when 42 is
    typed (not the number). *)
Theorem C1_numeric_field_posted_as_text :
  let schemaData := SchemaData.mk "Profile" None
        (Some (Schema.mk (Some [("age", FieldSchema.mk None None "integer" None None)])
                 (Some [])))
        (Some ∅) None None in
  let form := map fresh (form_fields (renderForm schemaData blankPage).1) in
  let loc := mkLocation [("fields", "age")] "/" in
  map (fun f => Control.type (ctl f)) form = ["text"] /\
  submissionPayload loc form = Normal {[ "age" := JString "" ]} /\
  submissionPayload loc (typeInto "age" "42" form) = Normal {[ "age" := JString "42" ]}.
Proof.
  cbv zeta. split; [reflexivity|]. split; vm_compute; reflexivity.
Qed.

(** C2 (the code departs from it). The boolean field "subscribe" is
    rendered as a checkbox; left unticked it contributes no entry to the
    form data, so the posted object has no key for it. Ticked, the key
    holds true. *)
Theorem C2_unticked_toggle_absent :
  let schemaData := SchemaData.mk "Newsletter" None
        (Some (Schema.mk (Some [("email", FieldSchema.mk None None "string" None None);
                                ("subscribe", FieldSchema.mk None None "boolean" None None)])
                 (Some [])))
        (Some ∅) None None in
  let form := typeInto "email" "a@b.c"
                (map fresh (form_fields (renderForm schemaData blankPage).1)) in
  let loc := mkLocation [("fields", "email,subscribe")] "/" in
  map (fun f => Control.type (ctl f)) form = ["text"; "checkbox"] /\
  (exists data, submissionPayload loc form = Normal data /\
                data = {[ "email" := JString "a@b.c" ]} /\
                data !! "subscribe" = None) /\
  (exists data, submissionPayload loc (tick "subscribe" form) = Normal data /\
                data !! "subscribe" = Some (JBool true)).
Proof.
  cbv zeta. split; [reflexivity|]. split.
  - eexists. split; [vm_compute; reflexivity|]. split; reflexivity.
  - eexists. split; [vm_compute; reflexivity|]. reflexivity.
Qed.

(** Every entry of the form data bears the name of a control of the form. *)
Lemma formData_names form entry :
  entry ∈ formData form -> exists f, f ∈ form /\ Control.name (ctl f) = entry.1.
Proof.
  unfold formData. rewrite list_elem_of_In, in_flat_map.
  intros (f & Hf & Hentry). exists f. split; [by apply list_elem_of_In|].
  unfold formDataEntry in Hentry.
  destruct (String.eqb _ ""); [done|].
  destruct (Control.elem (ctl f)) as [options|type|rows].
  - destruct (options !! selectedIndex f); [|done].
    destruct Hentry as [<-|[]]. done.
  - destruct (String.eqb type "checkbox"); [destruct (checked f)|];
      try done; by destruct Hentry as [<-|[]].
  - by destruct Hentry as [<-|[]].
Qed.


(** *** Keys that the selector spells as they are *)








(** The element that the lookup of a key finds is a control of the form. *)
Lemma querySelector_elem_of form key field :
  querySelector form key = Normal (Some field) -> field ∈ form.
Proof.
  unfold querySelector. destruct (nameSelector key) as [value| |]; [|done|done].
  intros [= Hfind]. apply find_some in Hfind as [Hin _]. by apply list_elem_of_In.
Qed.

(** An entry leaves the other keys as they are. *)
Lemma collectEntry_other form data entry data' key :
  collectEntry form data entry = Normal data' ->
  entry.1 <> key -> data' !! key = data !! key.
Proof.
  unfold collectEntry. destruct (querySelector form entry.1) as [[field|]|e]; [|done|done].
  assert (forall v, setProperty entry.1 v data !! key = data !! key \/ entry.1 = key) as Hset.
  { intros v. unfold setProperty. destruct (String.eqb _ "__proto__"); [by left|].
    destruct (decide (entry.1 = key)) as [|Hne]; [by right|].
    left. by rewrite lookup_insert_ne. }
  destruct (String.eqb _ "checkbox"); [|destruct (String.eqb _ "number")];
    intros [= <-] Hne;
    match goal with |- setProperty _ ?v _ !! _ = _ => by destruct (Hset v) end.
Qed.

Lemma collectEntries_other form entries data data' key :
  collectEntries form entries data = Normal data' ->
  (forall entry, entry ∈ entries -> entry.1 <> key) ->
  data' !! key = data !! key.
Proof.
  revert data. induction entries as [|entry rest IH]; intros data Hrun Hkey.
  - by injection Hrun as <-.
  - cbn [collectEntries] in Hrun.
    destruct (collectEntry form data entry) as [data1|] eqn:Hstep; [|done].
    rewrite (IH data1 Hrun) by (intros e He; apply Hkey; by right).
    apply (collectEntry_other _ _ _ _ _ Hstep). apply Hkey. by left.
Qed.



(** A payload is the collected object with the session id added. *)
Lemma submissionPayload_inv loc form data :
  submissionPayload loc form = Normal data ->
  exists collected,
    collectEntries form (formData form) ∅ = Normal collected /\
    data = addSessionId loc collected.
Proof.
  unfold submissionPayload.
  destruct (collectEntries form (formData form) ∅) as [collected|]; [|done].
  intros [= <-]. by exists collected.
Qed.


(** *** What a rendered form can post *)

Lemma renderForm_types schemaData p :
  Forall (fun field => Control.type (control field) <> "number")
    (form_fields (renderForm schemaData p).1).
Proof.
  destruct schemaData as [title description [[properties required]|] uiSchema btn error].
  - destruct uiSchema as [hints|].
    + rewrite renderForm_complete. cbn [fst form_fields]. unfold renderedFields.
      apply Forall_fmap, Forall_forall. intros [k fs] _.
      apply createInput_type_not_number.
    + unfold renderForm, bind, modify, throw, showSection. cbn -[for_each].
      destruct properties as [[|entry rest]|]; constructor.
  - constructor.
Qed.


(** On a form without a control of type "number" the loop only ever
    stores booleans and strings. *)
Lemma collectEntries_values form entries data data' :
  Forall (fun f => Control.type (ctl f) <> "number") form ->
  collectEntries form entries data = Normal data' ->
  (forall key v, data !! key = Some v -> isBoolOrString v = true) ->
  forall key v, data' !! key = Some v -> isBoolOrString v = true.
Proof.
  intros Htypes. revert data.
  induction entries as [|entry rest IH]; intros data Hrun Hdata.
  - by injection Hrun as <-.
  - cbn [collectEntries] in Hrun. unfold collectEntry in Hrun.
    destruct (querySelector form entry.1) as [[field|]|e] eqn:Hfield; [|done|done].
    apply querySelector_elem_of in Hfield.
    rewrite Forall_forall in Htypes. apply Htypes in Hfield. apply String.eqb_neq in Hfield.
    rewrite Hfield in Hrun.
    assert (forall v, isBoolOrString v = true ->
              forall key v', setProperty entry.1 v data !! key = Some v' ->
                             isBoolOrString v' = true) as Hset.
    { intros v Hv key v'. unfold setProperty.
      destruct (String.eqb _ "__proto__"); [apply Hdata|].
      rewrite lookup_insert. case_decide; [by intros [= <-] | apply Hdata]. }
    destruct (String.eqb (Control.type (ctl field)) "checkbox");
      eapply IH; try exact Hrun; by apply Hset.
Qed.

(** Whatever the schema and whatever the user enters, the payload of a
    form made of the rendered controls holds no number and no null. *)
Lemma rendered_form_posts_no_number schemaData p loc form data :
  map ctl form = map control (form_fields (renderForm schemaData p).1) ->
  submissionPayload loc form = Normal data ->
  forall key v, data !! key = Some v -> isBoolOrString v = true.
Proof.
  intros Hform. unfold submissionPayload.
  destruct (collectEntries form (formData form) ∅) as [collected|] eqn:Hrun; [|done].
  intros [= <-] key v. unfold addSessionId.
  assert (forall k v', collected !! k = Some v' -> isBoolOrString v' = true) as Hvalues.
  { eapply collectEntries_values; [|exact Hrun|by intros ? ? ?%lookup_empty_Some].
    pose proof (renderForm_types schemaData p) as Htypes.
    rewrite Forall_forall in Htypes. apply Forall_forall. intros f Hf.
    apply (list_elem_of_fmap_2 ctl) in Hf. change (ctl <$> form) with (map ctl form) in Hf.
    rewrite Hform in Hf. apply list_elem_of_fmap_1 in Hf as (field & -> & Hfield).
    by apply Htypes. }
  destruct (truthy _); [|apply Hvalues].
  rewrite lookup_insert. case_decide; [by intros [= <-] | apply Hvalues].
Qed.

Lemma formData_origin form entry :
  entry ∈ formData form -> exists f, f ∈ form /\ entry ∈ formDataEntry f.
Proof.
  unfold formData. rewrite list_elem_of_In, in_flat_map.
  intros (f & Hf & Hentry). exists f. by rewrite !list_elem_of_In.
Qed.

(** An unticked checkbox whose name no other control shares leaves no key
    in the payload. *)
Lemma unticked_checkbox_absent loc form f data :
  f ∈ form ->
  Control.elem (ctl f) = Control.input "checkbox" ->
  checked f = false ->
  (forall g, g ∈ form -> Control.name (ctl g) = Control.name (ctl f) -> g = f) ->
  Control.name (ctl f) <> "_session_id" ->
  submissionPayload loc form = Normal data ->
  data !! Control.name (ctl f) = None.
Proof.
  intros Hf Hbox Hoff Hunique Hkey (collected & Hrun & ->)%submissionPayload_inv.
  assert (collected !! Control.name (ctl f) = None) as Hnone.
  { rewrite (collectEntries_other _ _ _ _ _ Hrun); [done|]. intros entry Hentry Hname.
    destruct (formData_origin form entry Hentry) as (g & Hg & Hin).
    assert (g = f) as ->.
    { apply Hunique; [exact Hg|].
      destruct (formData_names [g] entry) as (g' & ->%list_elem_of_singleton & ->);
        [|exact Hname].
      unfold formData. cbn. by rewrite app_nil_r. }
    unfold formDataEntry in Hin. rewrite Hbox, Hoff in Hin.
    destruct (String.eqb _ ""); by apply elem_of_nil in Hin. }
  unfold addSessionId. destruct (truthy _); [|exact Hnone].
  by rewrite lookup_insert_ne.
Qed.

(** What the listener does once the payload is built, by the answer of the
    server; and what it does when the loop throws. *)
Lemma submitListener_cases w loc form p data :
  submissionPayload loc form = Normal data ->
  let posted := log_request (POST "/api/submit" data) p in
  submitListener w loc form p
  = match api_submit w data with
    | NetworkFailure reason | Response _ (inl reason) =>
        (errorPage ("Error submitting form: " +:+ reason) posted, Normal tt)
    | Response false (inr result) =>
        (errorPage ("Error submitting form: " +:+
                    js_or_str (SubmitResult.error result) "Failed to submit form") posted,
         Normal tt)
    | Response true (inr _) =>
        (set_visible success_container (set_success (form_title p) data posted), Normal tt)
    end.
Proof.
  intros Hpayload. cbv zeta. unfold submitListener. rewrite Hpayload.
  unfold bind, try_catch, fetch, modify, ret, throw, showError, showSection, getPage, errorPage.
  cbn. destruct (api_submit w _) as [reason|[] [reason|result]]; reflexivity.
Qed.

Lemma submitListener_throws w loc form p e :
  submissionPayload loc form = Throw e ->
  submitListener w loc form p = (p, Throw e).
Proof. intros Hpayload. unfold submitListener. by rewrite Hpayload. Qed.





(** ** The loader *)

Arguments renderForm : simpl never.

Lemma renderForm_requests schemaData p :
  requests (renderForm schemaData p).1 = requests p.
Proof.
  destruct schemaData as [title description [[properties required]|] uiSchema btn error].
  - destruct uiSchema as [hints|].
    + by rewrite renderForm_complete.
    + unfold renderForm, bind, modify, throw, showSection. cbn -[for_each].
      destruct properties as [[|entry rest]|]; reflexivity.
  - reflexivity.
Qed.

(** The request for the stored configuration is not a schema request. *)
Lemma config_request_not_schema sessionId :
  isSchemaRequest (GET ("/api/form-config/" +:+ sessionId)) = false.
Proof. reflexivity. Qed.

(** The resolver never throws, and it issues at most the configuration
    request. *)
Lemma resolveRequest_outcome w loc p :
  exists p1 resolved new,
    resolveRequest w loc p = (p1, Normal resolved) /\
    requests p1 = (requests p ++ new)%list /\
    Forall (fun r => isSchemaRequest r = false) new.
Proof.
  unfold resolveRequest.
  destruct (Params.isShortUrl (getUrlParams loc) && truthy (Params.sessionId (getUrlParams loc))).
  - unfold bind, try_catch, fetch, modify, ret, throw, showError, showSection.
    cbn -[getUrlParams isSchemaRequest].
    set (url := "/api/form-config/" +:+ template (Params.sessionId (getUrlParams loc))).
    assert (Forall (fun r => isSchemaRequest r = false) [GET url]) as Hnew.
    { constructor; [apply config_request_not_schema | constructor]. }
    destruct (form_config w url) as [reason|ok [reason|configData]];
      cbn -[getUrlParams isSchemaRequest].
    + by eexists _, _, [GET url].
    + by eexists _, _, [GET url].
    + destruct (negb ok || negb (ConfigData.success configData));
        cbn -[getUrlParams isSchemaRequest]; [by eexists _, _, [GET url]|].
      destruct (ConfigData.fields configData);
        cbn -[getUrlParams isSchemaRequest]; by eexists _, _, [GET url].
  - exists p, (Some (getUrlParams loc, None)), []. rewrite app_nil_r. by split.
Qed.

(** The resolver brings a schema exactly when the URL is a short URL and
    the configuration request is answered with success, a list of fields
    and a schema. *)
Lemma resolveRequest_pregenerated w loc p p1 params schemaData :
  resolveRequest w loc p = (p1, Normal (Some (params, Some schemaData))) <->
  let url := "/api/form-config/" +:+ template (Params.sessionId (getUrlParams loc)) in
  Params.isShortUrl (getUrlParams loc) && truthy (Params.sessionId (getUrlParams loc)) = true /\
  exists configData fields,
    form_config w url = Response true (inr configData) /\
    ConfigData.success configData = true /\
    ConfigData.fields configData = Some fields /\
    ConfigData.schema configData = Some schemaData /\
    params = Params.mk (join "," fields) (ConfigData.context configData)
               (Params.sessionId (getUrlParams loc)) true /\
    p1 = log_request (GET url) (set_visible loading p).
Proof.
  cbv zeta. unfold resolveRequest.
  destruct (Params.isShortUrl (getUrlParams loc)) eqn:Hshort; cbn [andb];
    [|split; [intros [=] | by intros [[=] _]]].
  destruct (truthy (Params.sessionId (getUrlParams loc))) eqn:Hsid;
    [|split; [intros [=] | by intros [[=] _]]].
  unfold bind, try_catch, fetch, modify, ret, throw, showError, showSection.
  cbn -[getUrlParams].
  set (url := "/api/form-config/" +:+ template (Params.sessionId (getUrlParams loc))).
  destruct (form_config w url) as [reason|ok [reason|configData]]; cbn -[getUrlParams].
  - split; [intros [=] | by intros (_ & ? & ? & [=] & _)].
  - split; [intros [=] | by intros (_ & ? & ? & [=] & _)].
  - destruct ok, (ConfigData.success configData) eqn:Hsuccess; cbn -[getUrlParams];
      try (split; [intros [=] | intros (_ & ? & ? & [= <-] & ? & _); congruence]).
    destruct (ConfigData.fields configData) as [fields|] eqn:Hfields; cbn -[getUrlParams];
      [|split; [intros [=] | intros (_ & ? & ? & [= <-] & _ & ? & _); congruence]].
    split.
    + intros [= <- <- Hschema]. split; [done|]. by exists configData, fields.
    + intros (_ & configData' & fields' & [= <-] & _ & Hfields' & Hschema & -> & ->).
      rewrite Hfields in Hfields'. injection Hfields' as <-. by rewrite Hschema.
Qed.

(** With a schema at hand the loader goes straight to [renderForm]. *)
Lemma loadForm_pregenerated w params schemaData p :
  Params.fields params <> "" ->
  loadForm w params (Some schemaData) p
  = try_catch (renderForm schemaData)
      (fun error => showError ("Error generating form: " +:+ message w error))
      (set_visible loading p).
Proof.
  intros Hfields%String.eqb_neq. unfold loadForm, truthy. rewrite Hfields.
  unfold bind, try_catch, showSection, modify, ret. cbn.
  destruct (renderForm schemaData (set_visible loading p)) as [p' [[]|e]]; reflexivity.
Qed.

Lemma try_renderForm_requests w schemaData p :
  requests (try_catch (renderForm schemaData)
              (fun error => showError ("Error generating form: " +:+ message w error)) p).1
  = requests p.
Proof.
  unfold try_catch. pose proof (renderForm_requests schemaData p) as H.
  destruct (renderForm schemaData p) as [p' [[]|e]]; exact H.
Qed.

(** A try block whose handler is [showError] ends normally. *)
Lemma try_showError_normal (m : M unit) (text : Exn -> string) p :
  exists p', try_catch m (fun error => showError (text error)) p = (p', Normal tt).
Proof.
  unfold try_catch. destruct (m p) as [p' [[]|e]]; by eexists.
Qed.

(** Whatever the servers answer, [generateForm] ends normally. *)
Lemma generateForm_never_throws w loc p :
  exists p', generateForm w loc p = (p', Normal tt).
Proof.
  unfold generateForm, bind.
  destruct (resolveRequest_outcome w loc p) as (p1 & resolved & new & -> & _ & _).
  destruct resolved as [[params pre]|]; [|by eexists].
  unfold loadForm. destruct (negb _); [by eexists|].
  unfold bind at 1. unfold showSection at 1. unfold modify at 1.
  apply try_showError_normal.
Qed.

(** A schema request among the requests of a load means that the resolver
    brought no schema. *)
Lemma loadForm_requests w params pre p :
  exists new,
    requests (loadForm w params pre p).1 = (requests p ++ new)%list /\
    (is_Some pre \/ Params.fields params = "" ->
     new = []).
Proof.
  unfold loadForm, truthy. destruct (String.eqb_spec (Params.fields params) "") as [Hempty|Hfields].
  - exists []. rewrite app_nil_r. by split.
  - cbn [negb]. destruct pre as [schemaData|].
    + exists []. rewrite app_nil_r. split; [|done].
      change (requests (try_catch (renderForm schemaData)
                (fun error => showError ("Error generating form: " +:+ message w error))
                (set_visible loading p)).1 = requests p).
      by rewrite try_renderForm_requests.
    + exists [GET (schemaUrl params)]. split; [|by intros [[? ?]|?]].
      unfold bind, try_catch, showSection, showError, modify, ret, throw, fetch.
      cbn. destruct (api_schema w _) as [reason|ok [reason|data]]; cbn; try done.
      destruct ok; cbn; [|done].
      pose proof (renderForm_requests data
                    (log_request (GET (schemaUrl params)) (set_visible loading p))) as H.
      destruct (renderForm data _) as [p' [[]|e]]; exact H.
Qed.

(** C7. When the resolver has obtained a schema from the stored
    configuration (and the resolved fields are not empty, so that the
    resolver has not failed), [generateForm] issues no schema request and
    hands that very schema to [renderForm]. Conversely a schema request
    among the requests of a load implies that the resolver obtained no
    schema. *)
Theorem C7_pregenerated_schema_used_verbatim (w : World) (loc : Location) (p : Page) :
  let out := generateForm w loc p in
  exists new,
    requests out.1 = (requests p ++ new)%list /\
    (forall p1 params schemaData,
       resolveRequest w loc p = (p1, Normal (Some (params, Some schemaData))) ->
       Params.fields params <> "" ->
       Forall (fun r => isSchemaRequest r = false) new /\
       out = try_catch (renderForm schemaData)
               (fun error => showError ("Error generating form: " +:+ message w error))
               (set_visible loading p1)) /\
    (Exists (fun r => isSchemaRequest r = true) new ->
     exists p1 params, resolveRequest w loc p = (p1, Normal (Some (params, None)))).
Proof.
  cbv zeta. unfold generateForm, bind.
  destruct (resolveRequest_outcome w loc p) as (p1 & resolved & new1 & Hres & Hreq1 & Hnew1).
  rewrite Hres. destruct resolved as [[params pre]|].
  - destruct (loadForm_requests w params pre p1) as (new2 & Hreq2 & Hnew2).
    exists (new1 ++ new2)%list. split; [by rewrite Hreq2, Hreq1, <- app_assoc|]. split.
    + intros p1' params' schemaData [= <- <- ->] Hfields.
      rewrite Hnew2, app_nil_r by (left; by eexists).
      split; [exact Hnew1|]. by apply loadForm_pregenerated.
    + intros [Hex|Hex]%Exists_app.
      * apply Exists_exists in Hex as (r & Hr & Hschema).
        rewrite Forall_forall in Hnew1. rewrite (Hnew1 r Hr) in Hschema. done.
      * destruct pre as [schemaData|]; [|by eexists _, _].
        rewrite Hnew2 in Hex by (left; by eexists). by apply Exists_nil in Hex.
  - exists new1. split; [exact Hreq1|]. split; [by intros ? ? ? [=]|].
    intros Hex. apply Exists_exists in Hex as (r & Hr & Hschema).
    rewrite Forall_forall in Hnew1. rewrite (Hnew1 r Hr) in Hschema. done.
Qed.

(** The short URL /form/abc123 whose configuration brings a schema: one
    request, for the configuration, and the schema is on the page. *)
Lemma C7_pregenerated_schema_used_verbatim_witness :
  let schemaData := SchemaData.mk "Signup" None
        (Some (Schema.mk (Some [("age", FieldSchema.mk None None "integer" None None)])
                 (Some ["age"])))
        (Some ∅) None None in
  let w := mkWorld
        (fun url => if String.eqb url "/api/form-config/abc123"
                    then Response true (inr (ConfigData.mk true None (Some ["age"])
                                               (Some "signup") (Some schemaData)))
                    else NetworkFailure "unreachable")
        (fun _ => NetworkFailure "unreachable")
        (fun _ => NetworkFailure "unreachable")
        (fun site => site) in
  let loc := mkLocation [] "/form/abc123" in
  let out := generateForm w loc blankPage in
  requests out.1 = [GET "/api/form-config/abc123"] /\
  Forall (fun r => isSchemaRequest r = false) (requests out.1) /\
  out = try_catch (renderForm schemaData)
          (fun error => showError ("Error generating form: " +:+ message w error))
          (set_visible loading
             (log_request (GET "/api/form-config/abc123") (set_visible loading blankPage))) /\
  visible out.1 = Some form_container /\
  map (fun field => Control.name (control field)) (form_fields out.1) = ["age"].
Proof.
  intros schemaData w loc out.
  destruct (C7_pregenerated_schema_used_verbatim w loc blankPage) as (new & Hreq & Hpre & _).
  destruct (Hpre _ _ schemaData eq_refl) as (Hnew & Hout); [discriminate|].
  cbn [requests blankPage app] in Hreq. fold out in Hreq, Hout.
  split; [reflexivity|]. split; [rewrite Hreq; exact Hnew|].
  split; [exact Hout|]. split; reflexivity.
Defined.

(** C8. [generateForm] never throws. When the resolver has not failed and
    the resolved fields are empty, the page ends in the error section with
    the fixed message about the fields parameter, and no schema request is
    issued; when moreover the URL is not a short URL with a session id, no
    request at all is issued. *)
Theorem C8_missing_fields_error (w : World) (loc : Location) (p : Page) :
  let out := generateForm w loc p in
  out.2 = Normal tt /\
  forall p1 params pre,
    resolveRequest w loc p = (p1, Normal (Some (params, pre))) ->
    Params.fields params = "" ->
    visible out.1 = Some error_section /\
    error_message out.1 = "No fields specified. Add ?fields=field1,field2 to the URL." /\
    (exists new, requests out.1 = (requests p ++ new)%list /\
                 Forall (fun r => isSchemaRequest r = false) new) /\
    (Params.isShortUrl (getUrlParams loc) && truthy (Params.sessionId (getUrlParams loc))
       = false ->
     requests out.1 = requests p).
Proof.
  cbv zeta. split.
  { destruct (generateForm_never_throws w loc p) as [p' ->]. reflexivity. }
  intros p1 params pre Hres Hfields.
  destruct (resolveRequest_outcome w loc p) as (p1' & resolved & new1 & Hres' & Hreq1 & Hnew1).
  rewrite Hres in Hres'. injection Hres' as <- <-.
  unfold generateForm, bind. rewrite Hres. unfold loadForm, truthy at 1. rewrite Hfields.
  cbn -[getUrlParams truthy]. split; [reflexivity|]. split; [reflexivity|]. split.
  - exists new1. by split.
  - intros Hshort. unfold resolveRequest in Hres. rewrite Hshort in Hres.
    by injection Hres as <- _ _.
Qed.

(** The plain URL / without query string: error section, fixed message,
    no request. *)
Lemma C8_missing_fields_error_witness :
  let w := mkWorld (fun _ => NetworkFailure "unreachable")
             (fun _ => NetworkFailure "unreachable")
             (fun _ => NetworkFailure "unreachable") (fun site => site) in
  let loc := mkLocation [] "/" in
  let out := generateForm w loc blankPage in
  resolveRequest w loc blankPage = (blankPage, Normal (Some (getUrlParams loc, None))) /\
  Params.fields (getUrlParams loc) = "" /\
  out.2 = Normal tt /\
  visible out.1 = Some error_section /\
  error_message out.1 = "No fields specified. Add ?fields=field1,field2 to the URL." /\
  requests out.1 = [].
Proof.
  intros w loc out.
  destruct (C8_missing_fields_error w loc blankPage) as (Hnormal & Herror).
  destruct (Herror blankPage (getUrlParams loc) None eq_refl eq_refl)
    as (Hvisible & Hmessage & _ & Hrequests).
  split; [reflexivity|]. split; [reflexivity|]. split; [exact Hnormal|].
  split; [exact Hvisible|]. split; [exact Hmessage|]. exact (Hrequests eq_refl).
Defined.

(** ** Sanity of the request model *)

Lemma schema_request_is_schema params :
  isSchemaRequest (GET (schemaUrl params)) = true.
Proof. reflexivity. Qed.

(** The query ?fields=username,email leads to one schema request, with the
    comma percent-encoded. *)
Lemma schema_request_example :
  let w := mkWorld (fun _ => NetworkFailure "unreachable")
             (fun _ => NetworkFailure "unreachable")
             (fun _ => NetworkFailure "unreachable") (fun site => site) in
  requests (generateForm w (mkLocation [("fields", "username,email")] "/") blankPage).1
  = [GET "/api/schema?fields=username%2Cemail"].
Proof. reflexivity. Qed.

(** * Further properties of the script *)

(** ** getUrlParams and the resolver *)

Lemma strip_prefix_append pre s rest :
  strip_prefix pre s = Some rest <-> s = pre +:+ rest.
Proof.
  revert s. induction pre as [|a pre IH]; intros s; cbn.
  - split; [by intros [= ->] | by intros ->].
  - destruct s as [|b s]; [by split|].
    destruct (Ascii.eqb_spec a b) as [->|Hne].
    + rewrite IH. split; [by intros -> | by intros [= ->]].
    + split; [done | intros [= ? ?]; congruence].
Qed.

(** X1. The pattern of the short URL accepts exactly the paths made of
    /form/ followed by a non-empty run of letters and digits, and captures
    that run; a trailing slash, a deeper path or another character is
    rejected. *)
Theorem shortUrlMatch_characterised (path segment : string) :
  shortUrlMatch path = Some segment <->
  path = "/form/" +:+ segment /\ segment <> "" /\
  forallb alphanumeric (list_ascii_of_string segment) = true.
Proof.
  unfold shortUrlMatch. split.
  - destruct (strip_prefix "/form/" path) as [rest|] eqn:Hstrip; [|done].
    apply strip_prefix_append in Hstrip.
    destruct (String.eqb_spec rest ""); [done|]. cbn [negb andb].
    destruct (forallb alphanumeric (list_ascii_of_string rest)) eqn:Hall; [|done].
    by intros [= <-].
  - intros (Hpath & Hne & Hall). apply strip_prefix_append in Hpath. rewrite Hpath.
    apply String.eqb_neq in Hne. by rewrite Hne, Hall.
Qed.

Lemma shortUrl_sessionId loc :
  Params.isShortUrl (getUrlParams loc) = true ->
  truthy (Params.sessionId (getUrlParams loc)) = true.
Proof.
  cbn. destruct (shortUrlMatch (pathname loc)) as [segment|] eqn:Hmatch; [|done].
  intros _. unfold js_or.
  destruct (truthy (searchParam loc "session_id")) eqn:Hq; [exact Hq|].
  apply shortUrlMatch_characterised in Hmatch as (_ & Hne%String.eqb_neq & _).
  cbn. by rewrite Hne.
Qed.

(** X2. The resolver asks for the stored configuration exactly when the
    path is a short URL, and then once. The session it asks for is the
    session_id query parameter when that is present and not empty, and the
    segment of the path otherwise. On any other path it issues no request,
    even if the URL carries a session_id. *)
Theorem resolver_lookup_target (w : World) (loc : Location) (p : Page) :
  requests (resolveRequest w loc p).1
  = (requests p ++
     match shortUrlMatch (pathname loc) with
     | Some segment =>
         [GET ("/api/form-config/" +:+
               match searchParam loc "session_id" with
               | Some s => if String.eqb s "" then segment else s
               | None => segment
               end)]
     | None => []
     end)%list.
Proof.
  unfold resolveRequest.
  destruct (Params.isShortUrl (getUrlParams loc)) eqn:Hshort.
  - rewrite (shortUrl_sessionId loc Hshort). cbn [andb].
    assert (template (Params.sessionId (getUrlParams loc))
            = match shortUrlMatch (pathname loc) with
              | Some segment =>
                  match searchParam loc "session_id" with
                  | Some s => if String.eqb s "" then segment else s
                  | None => segment
                  end
              | None => ""
              end) as Htarget.
    { cbn in Hshort |- *. destruct (shortUrlMatch (pathname loc)); [|done].
      unfold js_or, truthy. destruct (searchParam loc "session_id") as [q|]; [|done].
      by destruct (String.eqb q ""). }
    cbn in Hshort. destruct (shortUrlMatch (pathname loc)) as [segment|]; [|done].
    unfold bind, try_catch, fetch, modify, ret, throw, showError, showSection.
    cbn -[getUrlParams]. rewrite Htarget.
    destruct (form_config w _) as [reason|ok [reason|configData]];
      cbn -[getUrlParams]; try done.
    destruct (negb ok || negb (ConfigData.success configData));
      cbn -[getUrlParams]; [done|].
    by destruct (ConfigData.fields configData).
  - cbn [andb]. cbn in Hshort.
    destruct (shortUrlMatch (pathname loc)); [done|]. cbn. by rewrite app_nil_r.
Qed.


(** The loader past the test of the fields: the second try block, entered
    on the loading section. *)
Lemma loadForm_try w params pre p :
  Params.fields params <> "" ->
  loadForm w params pre p
  = try_catch
      (let* data :=
         match pre with
         | Some d => ret d
         | None =>
             let* r := fetch (GET (schemaUrl params)) (api_schema w (schemaUrl params)) in
             if negb r.1 then
               throw (Error (js_or_str (SchemaData.error r.2) "Failed to generate form"))
             else ret r.2
         end in
       renderForm data)
      (renderFailure w) (set_visible loading p).
Proof.
  intros Hfields%String.eqb_neq. unfold loadForm, truthy. rewrite Hfields. reflexivity.
Qed.

Lemma loadForm_empty w params pre p :
  Params.fields params = "" ->
  loadForm w params pre p = (errorPage missingFieldsMessage p, Normal tt).
Proof. intros Hfields. unfold loadForm, truthy. rewrite Hfields. reflexivity. Qed.



Lemma resolveRequest_plain w loc p :
  shortUrlMatch (pathname loc) = None ->
  resolveRequest w loc p = (p, Normal (Some (getUrlParams loc, None))).
Proof.
  intros Hplain. unfold resolveRequest. cbn. by rewrite Hplain.
Qed.

Lemma resolveRequest_short w loc p :
  Params.isShortUrl (getUrlParams loc) = true ->
  resolveRequest w loc p
  = (let* _ := showSection loading in
     try_catch
       (let* r := fetch (GET (configUrl loc)) (form_config w (configUrl loc)) in
        if negb r.1 || negb (ConfigData.success r.2) then
          throw (Error (js_or_str (ConfigData.error r.2) "Form config not found"))
        else
          let* fields :=
            match ConfigData.fields r.2 with
            | Some l => ret (join "," l)
            | None => throw (TypeError "configData.fields.join")
            end in
          ret (Some (Params.mk fields (ConfigData.context r.2)
                       (Params.sessionId (getUrlParams loc)) true,
                     ConfigData.schema r.2)))
       (fun error => showError ("Error: " +:+ message w error) >> ret None)) p.
Proof.
  intros Hshort. unfold resolveRequest.
  rewrite Hshort, (shortUrl_sessionId loc Hshort). reflexivity.
Qed.

(** X4. On a short URL, a failed lookup of the stored configuration ends
    the load on the error section with the text "Error: " followed by the
    reason: the platform's reason when the request or the parsing of the
    body fails, the error member of the body (or "Form config not found"
    when it is missing or empty) when the response is not ok or does not
    report success, the engine's message when the body has no fields
    member. Nothing else happens: one request, no schema request, the
    rendered fields untouched. *)
Theorem lookup_failure_shows_error (w : World) (loc : Location) (p : Page) :
  Params.isShortUrl (getUrlParams loc) = true ->
  let failed text :=
    (errorPage ("Error: " +:+ text)
       (log_request (GET (configUrl loc)) (set_visible loading p)), Normal tt) in
  (forall reason, form_config w (configUrl loc) = NetworkFailure reason ->
                  generateForm w loc p = failed reason) /\
  (forall ok reason, form_config w (configUrl loc) = Response ok (inl reason) ->
                     generateForm w loc p = failed reason) /\
  (forall ok configData,
     form_config w (configUrl loc) = Response ok (inr configData) ->
     ok = false \/ ConfigData.success configData = false ->
     generateForm w loc p
     = failed (js_or_str (ConfigData.error configData) "Form config not found")) /\
  (forall configData,
     form_config w (configUrl loc) = Response true (inr configData) ->
     ConfigData.success configData = true ->
     ConfigData.fields configData = None ->
     generateForm w loc p = failed (engine_message w "configData.fields.join")).
Proof.
  intros Hshort failed. subst failed. unfold generateForm, bind.
  rewrite (resolveRequest_short w loc p Hshort).
  unfold bind, try_catch, fetch, modify, ret, throw, showError, showSection, errorPage.
  cbn -[getUrlParams configUrl]. split_and!.
  - intros reason ->. reflexivity.
  - intros ok reason ->. reflexivity.
  - intros ok configData -> Hfail. cbn -[getUrlParams configUrl].
    assert (negb ok || negb (ConfigData.success configData) = true) as ->.
    { destruct Hfail as [-> | ->]; [done | by rewrite orb_true_r]. }
    reflexivity.
  - intros configData -> Hsuccess Hfields. cbn -[getUrlParams configUrl].
    rewrite Hsuccess, Hfields. reflexivity.
Qed.

Lemma lookup_failure_shows_error_witness :
  let w := mkWorld (fun _ => Response false (inr (ConfigData.mk false (Some "expired") None None None)))
             (fun _ => NetworkFailure "unreachable")
             (fun _ => NetworkFailure "unreachable") (fun site => site) in
  let loc := mkLocation [] "/form/abc123" in
  let out := generateForm w loc blankPage in
  visible out.1 = Some error_section /\
  error_message out.1 = "Error: expired" /\
  requests out.1 = [GET "/api/form-config/abc123"] /\
  form_fields out.1 = [].
Proof.
  intros w loc out.
  destruct (lookup_failure_shows_error w loc blankPage eq_refl) as (_ & _ & Hbody & _).
  unfold out. rewrite (Hbody false _ eq_refl (or_introl eq_refl)).
  repeat split.
Defined.

Lemma join_comma_empty (l : list string) :
  join "," l = "" <-> l = [] \/ l = [""].
Proof.
  destruct l as [|x [|y l]]; cbn.
  - split; [by left | done].
  - split; [intros ->; by right | by intros [[=] | [= ->]]].
  - split; [|by intros [[=] | [=]]].
    destruct x; cbn; discriminate.
Qed.

(** X5. A stored configuration whose list of fields is empty, or holds
    only the empty name, ends the load on the error section with the
    missing-fields text, after the one lookup request: a schema that the
    configuration brings along is not rendered. *)
Theorem empty_configuration_drops_schema
    (w : World) (loc : Location) (p : Page) (configData : ConfigData.t) (fields : list string) :
  Params.isShortUrl (getUrlParams loc) = true ->
  form_config w (configUrl loc) = Response true (inr configData) ->
  ConfigData.success configData = true ->
  ConfigData.fields configData = Some fields ->
  fields = [] \/ fields = [""] ->
  generateForm w loc p
  = (errorPage "No fields specified. Add ?fields=field1,field2 to the URL."
       (log_request (GET (configUrl loc)) (set_visible loading p)), Normal tt).
Proof.
  intros Hshort Hanswer Hsuccess Hfields Hempty%join_comma_empty.
  unfold generateForm. unfold bind at 1.
  rewrite (resolveRequest_short w loc p Hshort).
  unfold bind, try_catch, fetch, modify, ret, throw, showSection.
  cbn -[getUrlParams configUrl loadForm]. rewrite Hanswer.
  cbn -[getUrlParams configUrl loadForm]. rewrite Hsuccess, Hfields.
  cbn -[getUrlParams configUrl loadForm]. rewrite loadForm_empty by exact Hempty.
  reflexivity.
Qed.

Lemma empty_configuration_drops_schema_witness :
  let schemaData := SchemaData.mk "Signup" None
        (Some (Schema.mk (Some [("age", FieldSchema.mk None None "integer" None None)])
                 (Some [])))
        (Some ∅) None None in
  let configData := ConfigData.mk true None (Some []) None (Some schemaData) in
  let w := mkWorld (fun _ => Response true (inr configData))
             (fun _ => NetworkFailure "unreachable")
             (fun _ => NetworkFailure "unreachable") (fun site => site) in
  let loc := mkLocation [] "/form/abc123" in
  generateForm w loc blankPage
  = (errorPage "No fields specified. Add ?fields=field1,field2 to the URL."
       (log_request (GET (configUrl loc)) (set_visible loading blankPage)), Normal tt).
Proof.
  intros schemaData configData w loc.
  exact (empty_configuration_drops_schema w loc blankPage configData []
           eq_refl eq_refl eq_refl eq_refl (or_introl eq_refl)).
Defined.

(** X6. On a URL that is not a short URL and names fields, the load makes
    exactly one request, to the schema endpoint. When the request or the
    parsing fails, or the response is not ok, the page ends on the error
    section with "Error generating form: " followed by the reason (the
    error member of the body, or "Failed to generate form" when it is
    missing or empty) and nothing is rendered; when the response is ok its
    body is handed to [renderForm]. *)
Theorem schema_fetch_outcomes (w : World) (loc : Location) (p : Page) :
  shortUrlMatch (pathname loc) = None ->
  Params.fields (getUrlParams loc) <> "" ->
  let url := schemaUrl (getUrlParams loc) in
  let fetched := log_request (GET url) (set_visible loading p) in
  let failed text := (errorPage ("Error generating form: " +:+ text) fetched, Normal tt) in
  requests (generateForm w loc p).1 = (requests p ++ [GET url])%list /\
  (forall reason, api_schema w url = NetworkFailure reason ->
                  generateForm w loc p = failed reason) /\
  (forall ok reason, api_schema w url = Response ok (inl reason) ->
                     generateForm w loc p = failed reason) /\
  (forall data, api_schema w url = Response false (inr data) ->
                generateForm w loc p
                = failed (js_or_str (SchemaData.error data) "Failed to generate form")) /\
  (forall data, api_schema w url = Response true (inr data) ->
                generateForm w loc p = try_catch (renderForm data) (renderFailure w) fetched).
Proof.
  intros Hplain Hfields url fetched failed. subst failed fetched.
  unfold generateForm, bind. rewrite (resolveRequest_plain w loc p Hplain).
  split.
  { destruct (loadForm_requests w (getUrlParams loc) None p) as (new & Hreq & _).
    rewrite loadForm_try in * by exact Hfields. fold url in Hreq |- *.
    revert Hreq. unfold bind, try_catch, fetch, modify, ret, throw, renderFailure,
      showError, showSection.
    cbn -[getUrlParams schemaUrl]. intros _.
    destruct (api_schema w url) as [reason|ok [reason|data]];
      cbn -[getUrlParams schemaUrl]; try done.
    destruct ok; cbn -[getUrlParams schemaUrl]; [|done].
    pose proof (renderForm_requests data (log_request (GET url) (set_visible loading p))) as H.
    destruct (renderForm data _) as [p' [[]|e]]; exact H. }
  rewrite loadForm_try by exact Hfields. fold url.
  unfold bind, try_catch, fetch, modify, ret, throw, renderFailure, showError,
    showSection, errorPage.
  cbn -[getUrlParams schemaUrl]. split_and!.
  - intros reason ->. reflexivity.
  - intros ok reason ->. reflexivity.
  - intros data ->. reflexivity.
  - intros data ->. reflexivity.
Qed.

Lemma schema_fetch_outcomes_witness :
  let w := mkWorld (fun _ => NetworkFailure "unreachable")
             (fun _ => Response false (inr (SchemaData.mk "" None None None None None)))
             (fun _ => NetworkFailure "unreachable") (fun site => site) in
  let loc := mkLocation [("fields", "username,email"); ("context", "sign up")] "/" in
  let out := generateForm w loc blankPage in
  requests out.1 = [GET "/api/schema?fields=username%2Cemail&context=sign%20up"] /\
  visible out.1 = Some error_section /\
  error_message out.1 = "Error generating form: Failed to generate form".
Proof.
  intros w loc out.
  destruct (schema_fetch_outcomes w loc blankPage eq_refl) as (Hreq & _ & _ & Hnotok & _);
    [discriminate|].
  split; [exact Hreq|]. unfold out. rewrite (Hnotok _ eq_refl). split; reflexivity.
Defined.

(** ** renderForm, beyond the claims *)


(** X8. The label of a field carries the required marker exactly when the
    key is in [required], whatever the control: a required boolean field
    shows the marker although its checkbox is not marked required. The
    help markup is present exactly when the description is present and not
    empty, and then wraps the description. *)
Theorem label_marker_and_help
    title description properties required uiSchema submitButtonText error p :
  let out := renderForm (SchemaData.mk title description
                           (Some (Schema.mk (Some properties) (Some required)))
                           (Some uiSchema) submitButtonText error) p in
  Forall2 (fun (entry : string * FieldSchema.t) (field : FieldDiv) =>
             (label_marker field = true <-> entry.1 ∈ required) /\
             (isToggle (control field) = true -> Control.required (control field) = false) /\
             (help field = None <->
              FieldSchema.description entry.2 = None
              \/ FieldSchema.description entry.2 = Some "") /\
             (forall d, FieldSchema.description entry.2 = Some d -> d <> "" ->
                help field = Some ("<small class=" +:+ dquote +:+ "help-text" +:+ dquote
                                   +:+ ">" +:+ d +:+ "</small>")))
          properties (form_fields out.1).
Proof.
  cbv zeta. rewrite renderForm_complete. cbn [fst form_fields default from_option].
  unfold id, renderedFields. apply Forall2_fmap_r, Forall_Forall2_diag, Forall_forall.
  intros [fieldName fieldSchema] _.
  cbn -[createInput isToggle elem_of]. split_and!.
  - apply includes_elem_of.
  - destruct (createInput_shape required (hintOf uiSchema fieldName) fieldName fieldSchema)
      as (_ & _ & ->). by intros ->.
  - unfold truthy. destruct (FieldSchema.description fieldSchema) as [d|]; [|by split; [left|]].
    destruct (String.eqb_spec d "") as [->|Hne]; cbn.
    + by split; [right|].
    + split; [done | intros [[=] | [= ->]]; done].
  - intros d -> Hne%String.eqb_neq. unfold truthy. by rewrite Hne.
Qed.

(** X9. The hints and the format never change the kind of control of a
    field with an enum, a boolean field or a numeric field: whatever
    uiSchema says, an enum gives a select, a boolean without enum gives a
    checkbox without placeholder, an integer or number without enum gives
    a text input. *)
Theorem hints_do_not_change_typed_widgets
    title description properties required uiSchema submitButtonText error p
    i fieldName fieldSchema :
  properties !! i = Some (fieldName, fieldSchema) ->
  let out := renderForm (SchemaData.mk title description
                           (Some (Schema.mk (Some properties) (Some required)))
                           (Some uiSchema) submitButtonText error) p in
  exists field,
    form_fields out.1 !! i = Some field /\
    (FieldSchema.enum fieldSchema <> None -> Control.type (control field) = "select-one") /\
    (FieldSchema.enum fieldSchema = None -> FieldSchema.type fieldSchema = "boolean" ->
     Control.elem (control field) = Control.input "checkbox" /\
     Control.placeholder (control field) = None) /\
    (FieldSchema.enum fieldSchema = None ->
     FieldSchema.type fieldSchema = "integer" \/ FieldSchema.type fieldSchema = "number" ->
     Control.elem (control field) = Control.input "text").
Proof.
  intros Hentry out. subst out. rewrite renderForm_complete.
  cbn [fst form_fields default from_option]. unfold id.
  eexists. split; [by apply renderedFields_lookup|].
  cbn [control renderField]. unfold createInput, Control.type. split_and!.
  - by destruct (FieldSchema.enum fieldSchema).
  - by intros -> ->.
  - by intros -> [-> | ->].
Qed.

Lemma hints_do_not_change_typed_widgets_witness :
  let fieldSchema := FieldSchema.mk None None "integer" (Some "password") None in
  let uiSchema : gmap string UiField.t := {[ "pin" := UiField.mk (Some "password") None ]} in
  exists field,
    form_fields (renderForm (SchemaData.mk "T" None
                   (Some (Schema.mk (Some [("pin", fieldSchema)]) (Some [])))
                   (Some uiSchema) None None) blankPage).1 !! 0 = Some field /\
    Control.elem (control field) = Control.input "text".
Proof.
  intros fieldSchema uiSchema.
  destruct (hints_do_not_change_typed_widgets "T" None [("pin", fieldSchema)] [] uiSchema
              None None blankPage 0 "pin" fieldSchema eq_refl)
    as (field & Hfield & _ & _ & Hnumeric).
  exists field. split; [exact Hfield|]. apply Hnumeric; [reflexivity | by left].
Defined.

(** X10. A placeholder hint is shown on the single-line text control of a
    field that is neither enum, boolean nor numeric, and nowhere else. In
    particular an integer or number field that has a placeholder hint gets
    no placeholder at all: neither the hint nor "Enter a number". *)
Theorem placeholder_hint_only_on_plain_text
    title description properties required uiSchema submitButtonText error p
    i fieldName fieldSchema text :
  properties !! i = Some (fieldName, fieldSchema) ->
  UiField.placeholder (hintOf uiSchema fieldName) = Some text ->
  text <> "" ->
  let out := renderForm (SchemaData.mk title description
                           (Some (Schema.mk (Some properties) (Some required)))
                           (Some uiSchema) submitButtonText error) p in
  exists field,
    form_fields out.1 !! i = Some field /\
    (Control.placeholder (control field) = Some text \/
     Control.placeholder (control field) = None) /\
    (Control.placeholder (control field) = Some text ->
     Control.elem (control field) = Control.input "text" /\
     FieldSchema.enum fieldSchema = None /\
     FieldSchema.type fieldSchema <> "boolean" /\
     FieldSchema.type fieldSchema <> "integer" /\
     FieldSchema.type fieldSchema <> "number") /\
    (FieldSchema.type fieldSchema = "integer" \/ FieldSchema.type fieldSchema = "number" ->
     Control.placeholder (control field) = None).
Proof.
  intros Hentry Hhint Hne%String.eqb_neq out. subst out. rewrite renderForm_complete.
  cbn [fst form_fields default from_option]. unfold id.
  eexists. split; [by apply renderedFields_lookup|].
  cbn [control renderField]. unfold createInput. rewrite Hhint. unfold truthy. rewrite Hne.
  cbn [negb andb].
  destruct (FieldSchema.enum fieldSchema) as [values|].
  { split_and!; [by right | done | done]. }
  destruct (String.eqb_spec (FieldSchema.type fieldSchema) "boolean") as [Hb|Hb].
  { split_and!; [by right | done | done]. }
  destruct (String.eqb_spec (FieldSchema.type fieldSchema) "integer") as [Hi|Hi].
  { split_and!; [by right | done | done]. }
  destruct (String.eqb_spec (FieldSchema.type fieldSchema) "number") as [Hn|Hn].
  { split_and!; [by right | done | done]. }
  cbn [orb].
  destruct (is_string _ "password"); [split_and!; [by right | done | by intros [|]]|].
  destruct (is_string _ "textarea"); [split_and!; [by right | done | by intros [|]]|].
  split_and!; [by left | done | by intros [|]].
Qed.

Lemma placeholder_hint_only_on_plain_text_witness :
  let fieldSchema := FieldSchema.mk None None "integer" None None in
  let uiSchema : gmap string UiField.t := {[ "age" := UiField.mk None (Some "Your age") ]} in
  exists field,
    form_fields (renderForm (SchemaData.mk "T" None
                   (Some (Schema.mk (Some [("age", fieldSchema)]) (Some [])))
                   (Some uiSchema) None None) blankPage).1 !! 0 = Some field /\
    Control.placeholder (control field) = None.
Proof.
  intros fieldSchema uiSchema.
  destruct (placeholder_hint_only_on_plain_text "T" None [("age", fieldSchema)] [] uiSchema
              None None blankPage 0 "age" fieldSchema "Your age" eq_refl eq_refl)
    as (field & Hfield & _ & _ & Hnumeric); [discriminate|].
  exists field. split; [exact Hfield|]. apply Hnumeric. by left.
Defined.

(** ** The submit listener, beyond the claims *)














(** X15. The fill-again button brings back the form as it was rendered:
    after a submit, whatever its outcome, a click shows the form section
    with the same title and the same fields, and makes no request. *)
Theorem fill_again_shows_same_form (w : World) (loc : Location) (form : list Live) (p : Page) :
  let submitted := (submitListener w loc form p).1 in
  let back := fillAgain submitted in
  back.2 = Normal tt /\
  visible back.1 = Some form_container /\
  form_title back.1 = form_title p /\
  form_fields back.1 = form_fields p /\
  requests back.1 = requests submitted.
Proof.
  cbv zeta. destruct (submissionPayload loc form) as [data|e] eqn:Hpayload.
  - rewrite (submitListener_cases w loc form p data Hpayload).
    destruct (api_submit w data) as [reason|[] [reason|result]]; by cbn.
  - by rewrite (submitListener_throws w loc form p e Hpayload).
Qed.

(** *** When the lookup of line 213 fails *)




(** ** From the schema to the posted object *)





(** ** The URL of the schema request *)

Lemma hex_digit_unreserved n : n < 16 -> unreserved (hex_digit n) = true.
Proof.
  intros Hn. do 16 (destruct n as [|n]; [reflexivity|]). lia.
Qed.

Lemma hex_digit_inj n m : n < 16 -> m < 16 -> hex_digit n = hex_digit m -> n = m.
Proof.
  intros Hn Hm Heq. apply (f_equal nat_of_ascii) in Heq. revert Heq.
  do 16 (destruct n as [|n]; [do 16 (destruct m as [|m]; [by vm_compute|]); lia|]). lia.
Qed.

Lemma nat_of_ascii_bound c : nat_of_ascii c < 256.
Proof. destruct c as [[] [] [] [] [] [] [] []]; vm_compute; lia. Qed.

Lemma percent_reserved : unreserved "%" = false.
Proof. reflexivity. Qed.

Lemma encodeURIComponent_safe s :
  forallb urlSafe (list_ascii_of_string (encodeURIComponent s)) = true.
Proof.
  induction s as [|c s IH]; [reflexivity|]. cbn [encodeURIComponent].
  destruct (unreserved c) eqn:Hc.
  - cbn. unfold urlSafe at 1. by rewrite Hc.
  - pose proof (nat_of_ascii_bound c) as Hbound.
    cbn [list_ascii_of_string forallb]. rewrite IH.
    unfold urlSafe at 2 3.
    rewrite !hex_digit_unreserved; [reflexivity | |].
    + apply Nat.mod_upper_bound. lia.
    + apply Nat.Div0.div_lt_upper_bound. lia.
Qed.

Lemma encodeURIComponent_inj s t :
  encodeURIComponent s = encodeURIComponent t -> s = t.
Proof.
  revert t. induction s as [|a s IH]; intros [|b t]; cbn [encodeURIComponent].
  - done.
  - by destruct (unreserved b).
  - by destruct (unreserved a).
  - destruct (unreserved a) eqn:Ha, (unreserved b) eqn:Hb.
    + intros [= -> Hrest]. f_equal. by apply IH.
    + intros [= -> _]. by rewrite percent_reserved in Ha.
    + intros [= <- _]. by rewrite percent_reserved in Hb.
    + intros [= Hhigh Hlow Hrest].
      pose proof (nat_of_ascii_bound a) as Hbound_a.
      pose proof (nat_of_ascii_bound b) as Hbound_b.
      change (hex_digit (nat_of_ascii a / 16) = hex_digit (nat_of_ascii b / 16)) in Hhigh.
      change (hex_digit (nat_of_ascii a mod 16) = hex_digit (nat_of_ascii b mod 16)) in Hlow.
      apply hex_digit_inj in Hhigh;
        [|apply Nat.Div0.div_lt_upper_bound; lia|apply Nat.Div0.div_lt_upper_bound; lia].
      apply hex_digit_inj in Hlow;
        [|apply Nat.mod_upper_bound; lia|apply Nat.mod_upper_bound; lia].
      assert (nat_of_ascii a = nat_of_ascii b) as Hcode.
      { rewrite (Nat.div_mod_eq (nat_of_ascii a) 16), (Nat.div_mod_eq (nat_of_ascii b) 16).
        by rewrite Hhigh, Hlow. }
      apply (f_equal ascii_of_nat) in Hcode. rewrite !ascii_nat_embedding in Hcode.
      subst b. f_equal. by apply IH.
Qed.

Lemma append_inv_head pre x y : pre +:+ x = pre +:+ y -> x = y.
Proof. induction pre as [|c pre IH]; cbn; [done | intros [= H]; by apply IH]. Qed.

Lemma append_empty_r s : s +:+ "" = s.
Proof.
  induction s as [|c s IH]; [done|].
  change (String c (s +:+ "") = String c s). by rewrite IH.
Qed.

(** Two strings of safe characters that agree up to an ampersand agree
    before it and after it. *)
Lemma split_at_ampersand a b x y :
  forallb urlSafe (list_ascii_of_string a) = true ->
  forallb urlSafe (list_ascii_of_string b) = true ->
  a +:+ String "&" x = b +:+ String "&" y -> a = b /\ x = y.
Proof.
  revert b. induction a as [|c a IH]; intros [|d b]; cbn.
  - by intros _ _ [= ->].
  - intros _ [Hd _]%andb_true_iff [= <- _]. done.
  - intros [Hc _]%andb_true_iff _ [= -> _]. done.
  - intros [_ Ha]%andb_true_iff [_ Hb]%andb_true_iff [= -> Hrest].
    destruct (IH b Ha Hb Hrest) as [-> ->]. done.
Qed.

Lemma no_ampersand a b x :
  forallb urlSafe (list_ascii_of_string a) = true ->
  a = b +:+ String "&" x -> False.
Proof.
  revert b. induction a as [|c a IH]; intros [|d b]; cbn; try done.
  - intros [Hc _]%andb_true_iff [= -> _]. done.
  - intros [_ Ha]%andb_true_iff [= _ Hrest]. by apply (IH b).
Qed.

(** X17. The URL of the schema request is the fixed prefix, the encoded
    fields and, only when a context is present and not empty, the
    separator "&context=" with the encoded context. Both encoded values are
    made of unreserved characters and percent signs: none of "&", "=",
    "?", "#", "/", "+", "," and the space occurs in them, so that neither
    value can add or cut a parameter. Fields made of unreserved characters
    only are sent unchanged. *)
Theorem schemaUrl_shape (params : Params.t) :
  exists fieldsValue contextPart,
    schemaUrl params = "/api/schema?fields=" +:+ fieldsValue +:+ contextPart /\
    forallb urlSafe (list_ascii_of_string fieldsValue) = true /\
    (truthy (Params.context params) = false -> contextPart = "") /\
    (truthy (Params.context params) = true ->
     exists contextValue,
       contextPart = "&context=" +:+ contextValue /\
       forallb urlSafe (list_ascii_of_string contextValue) = true) /\
    (forall c, urlSafe c = true ->
               ~ In c ["&"; "="; "?"; "#"; "/"; "+"; ","; " "]%char) /\
    (forall fields, Params.fields params = fields ->
       forallb unreserved (list_ascii_of_string fields) = true ->
       fieldsValue = fields).
Proof.
  exists (encodeURIComponent (Params.fields params)),
    (if truthy (Params.context params)
     then "&context=" +:+ encodeURIComponent (template (Params.context params))
     else "").
  split; [reflexivity|]. split; [apply encodeURIComponent_safe|]. split_and!.
  - by intros ->.
  - intros ->. eexists. split; [reflexivity | apply encodeURIComponent_safe].
  - intros c Hc Hin. cbn in Hin.
    repeat (destruct Hin as [<- | Hin]; [by vm_compute in Hc|]). done.
  - intros fields -> Hplain. induction fields as [|c fields IH]; [reflexivity|].
    cbn in Hplain |- *. apply andb_true_iff in Hplain as [-> Hrest]. f_equal. by apply IH.
Qed.

(** X18. The URL of the schema request determines what was asked:
    two sets of parameters with the same URL have the same fields, both
    have a context or both have none, and the contexts are equal when
    present. *)
Theorem schemaUrl_injective (params params' : Params.t) :
  schemaUrl params = schemaUrl params' ->
  Params.fields params = Params.fields params' /\
  truthy (Params.context params) = truthy (Params.context params') /\
  (truthy (Params.context params) = true ->
   Params.context params = Params.context params').
Proof.
  unfold schemaUrl. intros Hurl%append_inv_head.
  pose proof (encodeURIComponent_safe (Params.fields params)) as Hsafe.
  pose proof (encodeURIComponent_safe (Params.fields params')) as Hsafe'.
  destruct (truthy (Params.context params)) eqn:Hc,
           (truthy (Params.context params')) eqn:Hc'.
  - cbn in Hurl. apply split_at_ampersand in Hurl as [Hfields Hcontext]; [|done|done].
    injection Hcontext as Hcontext. apply encodeURIComponent_inj in Hfields, Hcontext.
    split; [done|]. split; [done|]. intros _.
    destruct (Params.context params), (Params.context params'); try done.
    cbn in Hcontext. by subst.
  - exfalso. rewrite append_empty_r in Hurl. symmetry in Hurl.
    by apply no_ampersand in Hurl.
  - exfalso. rewrite append_empty_r in Hurl. by apply no_ampersand in Hurl.
  - rewrite !append_empty_r in Hurl. apply encodeURIComponent_inj in Hurl. by split_and!.
Qed.

Lemma schemaUrl_injective_witness :
  let params := Params.mk "a,b" (Some "x y") None false in
  Params.fields params = "a,b" /\ Params.context params = Some "x y".
Proof.
  intros params.
  destruct (schemaUrl_injective params (Params.mk "a,b" (Some "x y") None false) eq_refl)
    as (Hfields & _ & Hcontext).
  split; [exact Hfields | exact (Hcontext eq_refl)].
Defined.

(** ** The loader, end to end *)

(** X19. On a short URL whose stored configuration brings fields but no
    schema, the load makes two requests in this order: the lookup, then
    the schema request built from the fields and the context of the
    configuration. The fields and context parameters of the URL itself are
    not used. *)
Theorem configuration_overrides_url
    (w : World) (loc : Location) (p : Page) (configData : ConfigData.t) (fields : list string) :
  Params.isShortUrl (getUrlParams loc) = true ->
  form_config w (configUrl loc) = Response true (inr configData) ->
  ConfigData.success configData = true ->
  ConfigData.fields configData = Some fields ->
  join "," fields <> "" ->
  ConfigData.schema configData = None ->
  requests (generateForm w loc p).1
  = (requests p ++
     [GET (configUrl loc);
      GET ("/api/schema?fields=" +:+ encodeURIComponent (join "," fields) +:+
           (if truthy (ConfigData.context configData)
            then "&context=" +:+ encodeURIComponent (template (ConfigData.context configData))
            else ""))])%list.
Proof.
  intros Hshort Hanswer Hsuccess Hfields Hjoin Hschema.
  unfold generateForm, bind. rewrite (resolveRequest_short w loc p Hshort).
  unfold bind, try_catch, fetch, modify, ret, throw, showSection.
  cbn -[getUrlParams configUrl loadForm]. rewrite Hanswer.
  cbn -[getUrlParams configUrl loadForm]. rewrite Hsuccess, Hfields, Hschema.
  cbn -[getUrlParams configUrl loadForm].
  match goal with |- context [loadForm w ?params None ?q] =>
    destruct (loadForm_requests w params None q) as (new & Hreq & _);
    rewrite loadForm_try in * by exact Hjoin;
    set (url := schemaUrl params) in *;
    assert (requests (try_catch
              (let* data :=
                 (let* r := fetch (GET url) (api_schema w url) in
                  if negb r.1 then
                    throw (Error (js_or_str (SchemaData.error r.2) "Failed to generate form"))
                  else ret r.2) in
               renderForm data) (renderFailure w) (set_visible loading q)).1
            = (requests q ++ [GET url])%list) as ->
  end.
  { unfold bind, try_catch, fetch, modify, ret, throw, renderFailure, showError, showSection.
    cbn -[getUrlParams configUrl].
    destruct (api_schema w url) as [reason|[] [reason|data]];
      cbn -[getUrlParams configUrl]; try done.
    match goal with |- context [renderForm data ?q'] =>
      pose proof (renderForm_requests data q') as H;
      destruct (renderForm data q') as [p' [[]|e]]; exact H end. }
  cbn -[getUrlParams configUrl]. by rewrite <- app_assoc.
Qed.

Lemma configuration_overrides_url_witness :
  let configData := ConfigData.mk true None (Some ["age"; "city"]) (Some "signup") None in
  let w := mkWorld (fun _ => Response true (inr configData))
             (fun _ => NetworkFailure "unreachable")
             (fun _ => NetworkFailure "unreachable") (fun site => site) in
  let loc := mkLocation [("fields", "ignored"); ("context", "ignored")] "/form/abc123" in
  requests (generateForm w loc blankPage).1
  = [GET "/api/form-config/abc123"; GET "/api/schema?fields=age%2Ccity&context=signup"].
Proof.
  intros configData w loc.
  exact (configuration_overrides_url w loc blankPage configData ["age"; "city"]
           eq_refl eq_refl eq_refl eq_refl ltac:(discriminate) eq_refl).
Defined.

(** X20. A served schema payload that has properties but no uiSchema does
    not produce a form: the load ends on the error section with "Error
    generating form: " followed by the engine's message for the failed
    lookup, after the title has been replaced and the fields cleared. The
    same happens, with the message of that other read, when the payload
    has no schema member. *)
Theorem unrenderable_schema_shows_error
    (w : World) (loc : Location) (p : Page) (data : SchemaData.t) :
  shortUrlMatch (pathname loc) = None ->
  Params.fields (getUrlParams loc) <> "" ->
  api_schema w (schemaUrl (getUrlParams loc)) = Response true (inr data) ->
  let out := generateForm w loc p in
  (forall entry rest required,
     SchemaData.schema data = Some (Schema.mk (Some (entry :: rest)) required) ->
     SchemaData.uiSchema data = None ->
     visible out.1 = Some error_section /\
     error_message out.1
     = "Error generating form: " +:+ engine_message w "uiSchema[fieldName]" /\
     form_title out.1 = SchemaData.title data /\
     form_fields out.1 = []) /\
  (SchemaData.schema data = None ->
   visible out.1 = Some error_section /\
   error_message out.1
   = "Error generating form: " +:+ engine_message w "schema.properties" /\
   form_title out.1 = SchemaData.title data /\
   form_fields out.1 = []).
Proof.
  intros Hplain Hfields Hanswer out. subst out.
  unfold generateForm, bind. rewrite (resolveRequest_plain w loc p Hplain).
  rewrite loadForm_try by exact Hfields.
  unfold bind, try_catch, fetch, modify, ret, throw, renderFailure, showError, showSection.
  cbn -[getUrlParams schemaUrl]. rewrite Hanswer. cbn -[getUrlParams schemaUrl].
  destruct data as [title description schema uiSchema btn error]. cbn [SchemaData.schema
    SchemaData.uiSchema SchemaData.title]. split.
  - intros entry rest required -> ->. unfold renderForm, bind, modify, throw.
    cbn -[getUrlParams schemaUrl]. done.
  - intros ->. unfold renderForm, bind, modify, throw. cbn -[getUrlParams schemaUrl]. done.
Qed.

Lemma unrenderable_schema_shows_error_witness :
  let data := SchemaData.mk "Profile" None
        (Some (Schema.mk (Some [("age", FieldSchema.mk None None "integer" None None)]) None))
        None None None in
  let w := mkWorld (fun _ => NetworkFailure "unreachable")
             (fun _ => Response true (inr data))
             (fun _ => NetworkFailure "unreachable") (fun site => "cannot read " +:+ site) in
  let out := generateForm w (mkLocation [("fields", "age")] "/") blankPage in
  visible out.1 = Some error_section /\
  error_message out.1 = "Error generating form: cannot read uiSchema[fieldName]" /\
  form_title out.1 = "Profile" /\
  form_fields out.1 = [].
Proof.
  intros data w out.
  destruct (unrenderable_schema_shows_error w (mkLocation [("fields", "age")] "/")
              blankPage data eq_refl ltac:(discriminate) eq_refl) as (Hhints & _).
  exact (Hhints _ _ _ eq_refl eq_refl).
Defined.
